(** * Emo-Bot emotion engine: the mood state machine of [fsm_engine.py]

    A shallow embedding of the class [EmotionFSM]: the state list, the
    wildcard transitions handed to [transitions.Machine], the selection of a
    target state from two classifier score dictionaries
    ([update_from_nlp]), the trigger dispatch ([_apply_transition]) and the
    Graphviz description of the machine ([get_graphviz_source]), and the
    part of the page script [app.py] that drives the machine and shows its
    mood.

    Python data is kept as the code has it: state names and labels are
    strings (held as their UTF-8 bytes, with [str.lower] and [str.upper]
    following the Unicode case mappings), scores are IEEE binary64 floats, a [dict] is the list of its
    items in iteration (insertion) order, and a method is a function from
    the object's fields to a result and the fields afterwards, or to a
    raised exception. *)

From Stdlib Require Import List String Ascii Bool Arith Floats ZArith NArith
  Lia Permutation.
Import ListNotations.
Open Scope string_scope.
Set Warnings "-inexact-float".

(** ** Unicode case mappings, as [str.lower] and [str.upper] apply them

    The tables are those of Unicode 14.0, which CPython 3.11 carries:
    the simple mappings, the code points whose full mapping is longer, and
    the properties Cased and Case_Ignorable that decide the lower case of
    capital sigma. *)

Module Unicode.

(** A [str] is a sequence of code points; a [string] holds its UTF-8 bytes,
    so equal strings are equal byte sequences and only the empty [str] has
    no byte. A byte that starts no well-formed sequence, which no [str]
    produces, is carried through as a value beyond U+10FFFF. *)
Definition raw_base : N := 0x110000.

Definition is_cont (n : N) : bool := ((0x80 <=? n) && (n <? 0xC0))%N.

Fixpoint decode (s : string) : list N :=
  match s with
  | EmptyString => []
  | String b0 r0 =>
      let n0 := N_of_ascii b0 in
      let raw := (raw_base + n0)%N :: decode r0 in
      if (n0 <? 0x80)%N then n0 :: decode r0
      else
        match r0 with
        | EmptyString => raw
        | String b1 r1 =>
            let n1 := N_of_ascii b1 in
            let v2 := ((n0 - 0xC0) * 0x40 + (n1 - 0x80))%N in
            if ((0xC0 <=? n0) && (n0 <? 0xE0) && is_cont n1 && (0x80 <=? v2))%N
            then v2 :: decode r1
            else
              match r1 with
              | EmptyString => raw
              | String b2 r2 =>
                  let n2 := N_of_ascii b2 in
                  let v3 := ((n0 - 0xE0) * 0x1000 + (n1 - 0x80) * 0x40
                             + (n2 - 0x80))%N in
                  if ((0xE0 <=? n0) && (n0 <? 0xF0) && is_cont n1 && is_cont n2
                      && (0x800 <=? v3))%N
                  then v3 :: decode r2
                  else
                    match r2 with
                    | EmptyString => raw
                    | String b3 r3 =>
                        let n3 := N_of_ascii b3 in
                        let v4 := ((n0 - 0xF0) * 0x40000 + (n1 - 0x80) * 0x1000
                                   + (n2 - 0x80) * 0x40 + (n3 - 0x80))%N in
                        if ((0xF0 <=? n0) && (n0 <? 0xF8) && is_cont n1
                            && is_cont n2 && is_cont n3
                            && (0x10000 <=? v4) && (v4 <? raw_base))%N
                        then v4 :: decode r3
                        else raw
                    end
              end
        end
  end.

(** A byte with its top bit set: [0x80 + x], for [x] below [0x80]. *)
Definition high_byte (x : N) : ascii := ascii_of_N (0x80 + x mod 0x80).

(** The UTF-8 bytes of one code point, in front of [rest]. *)
Definition encode_one (c : N) (rest : string) : string :=
  if (c <? 0x80)%N then String (ascii_of_N c) rest
  else if (c <? 0x800)%N then
    String (high_byte (0x40 + c / 0x40))
      (String (high_byte (c mod 0x40)) rest)
  else if (c <? 0x10000)%N then
    String (high_byte (0x60 + c / 0x1000))
      (String (high_byte (c / 0x40 mod 0x40))
         (String (high_byte (c mod 0x40)) rest))
  else if (c <? raw_base)%N then
    String (high_byte (0x70 + c / 0x40000))
      (String (high_byte (c / 0x1000 mod 0x40))
         (String (high_byte (c / 0x40 mod 0x40))
            (String (high_byte (c mod 0x40)) rest)))
  else String (high_byte c) rest.

Fixpoint encode (cps : list N) : string :=
  match cps with
  | [] => EmptyString
  | c :: r => encode_one c (encode r)
  end.

(** Membership in a table of ranges. *)
Definition in_ranges (ranges : list (N * N)) (c : N) : bool :=
  existsb (fun r => (fst r <=? c) && (c <=? snd r))%N ranges.

Definition in_run (c : N) (r : N * N * N * N) : bool :=
  let '(first, last, step, _) := r in
  ((first <=? c) && (c <=? last) && ((c - first) mod step =? 0))%N.

(** The simple mapping a table of runs gives; a code point in no run maps
    to itself. *)
Definition simple_map (runs : list (N * N * N * N)) (c : N) : N :=
  match find (in_run c) runs with
  | Some (first, _, _, target) => (target + (c - first))%N
  | None => c
  end.

Fixpoint special_map (table : list (N * list N)) (c : N) : option (list N) :=
  match table with
  | [] => None
  | (k, v) :: r => if (k =? c)%N then Some v else special_map r c
  end.

(** The simple lower-case mapping above U+007F, in runs: [(first, last, step, target)]
    sends [first + k * step], up to [last], to [target + k * step]. *)
Definition lower_runs : list (N * N * N * N) :=
  [
    (0xC0, 0xD6, 1, 0xE0); (0xD8, 0xDE, 1, 0xF8); (0x100, 0x12E, 2, 0x101);
    (0x132, 0x136, 2, 0x133); (0x139, 0x147, 2, 0x13A); (0x14A, 0x176, 2, 0x14B);
    (0x178, 0x178, 1, 0xFF); (0x179, 0x17D, 2, 0x17A); (0x181, 0x181, 1, 0x253);
    (0x182, 0x184, 2, 0x183); (0x186, 0x186, 1, 0x254); (0x187, 0x187, 1, 0x188);
    (0x189, 0x18A, 1, 0x256); (0x18B, 0x18B, 1, 0x18C); (0x18E, 0x18E, 1, 0x1DD);
    (0x18F, 0x18F, 1, 0x259); (0x190, 0x190, 1, 0x25B); (0x191, 0x191, 1, 0x192);
    (0x193, 0x193, 1, 0x260); (0x194, 0x194, 1, 0x263); (0x196, 0x196, 1, 0x269);
    (0x197, 0x197, 1, 0x268); (0x198, 0x198, 1, 0x199); (0x19C, 0x19C, 1, 0x26F);
    (0x19D, 0x19D, 1, 0x272); (0x19F, 0x19F, 1, 0x275); (0x1A0, 0x1A4, 2, 0x1A1);
    (0x1A6, 0x1A6, 1, 0x280); (0x1A7, 0x1A7, 1, 0x1A8); (0x1A9, 0x1A9, 1, 0x283);
    (0x1AC, 0x1AC, 1, 0x1AD); (0x1AE, 0x1AE, 1, 0x288); (0x1AF, 0x1AF, 1, 0x1B0);
    (0x1B1, 0x1B2, 1, 0x28A); (0x1B3, 0x1B5, 2, 0x1B4); (0x1B7, 0x1B7, 1, 0x292);
    (0x1B8, 0x1B8, 1, 0x1B9); (0x1BC, 0x1BC, 1, 0x1BD); (0x1C4, 0x1C4, 1, 0x1C6);
    (0x1C5, 0x1C5, 1, 0x1C6); (0x1C7, 0x1C7, 1, 0x1C9); (0x1C8, 0x1C8, 1, 0x1C9);
    (0x1CA, 0x1CA, 1, 0x1CC); (0x1CB, 0x1DB, 2, 0x1CC); (0x1DE, 0x1EE, 2, 0x1DF);
    (0x1F1, 0x1F1, 1, 0x1F3); (0x1F2, 0x1F4, 2, 0x1F3); (0x1F6, 0x1F6, 1, 0x195);
    (0x1F7, 0x1F7, 1, 0x1BF); (0x1F8, 0x21E, 2, 0x1F9); (0x220, 0x220, 1, 0x19E);
    (0x222, 0x232, 2, 0x223); (0x23A, 0x23A, 1, 0x2C65); (0x23B, 0x23B, 1, 0x23C);
    (0x23D, 0x23D, 1, 0x19A); (0x23E, 0x23E, 1, 0x2C66); (0x241, 0x241, 1, 0x242);
    (0x243, 0x243, 1, 0x180); (0x244, 0x244, 1, 0x289); (0x245, 0x245, 1, 0x28C);
    (0x246, 0x24E, 2, 0x247); (0x370, 0x372, 2, 0x371); (0x376, 0x376, 1, 0x377);
    (0x37F, 0x37F, 1, 0x3F3); (0x386, 0x386, 1, 0x3AC); (0x388, 0x38A, 1, 0x3AD);
    (0x38C, 0x38C, 1, 0x3CC); (0x38E, 0x38F, 1, 0x3CD); (0x391, 0x3A1, 1, 0x3B1);
    (0x3A3, 0x3AB, 1, 0x3C3); (0x3CF, 0x3CF, 1, 0x3D7); (0x3D8, 0x3EE, 2, 0x3D9);
    (0x3F4, 0x3F4, 1, 0x3B8); (0x3F7, 0x3F7, 1, 0x3F8); (0x3F9, 0x3F9, 1, 0x3F2);
    (0x3FA, 0x3FA, 1, 0x3FB); (0x3FD, 0x3FF, 1, 0x37B); (0x400, 0x40F, 1, 0x450);
    (0x410, 0x42F, 1, 0x430); (0x460, 0x480, 2, 0x461); (0x48A, 0x4BE, 2, 0x48B);
    (0x4C0, 0x4C0, 1, 0x4CF); (0x4C1, 0x4CD, 2, 0x4C2); (0x4D0, 0x52E, 2, 0x4D1);
    (0x531, 0x556, 1, 0x561); (0x10A0, 0x10C5, 1, 0x2D00); (0x10C7, 0x10C7, 1, 0x2D27);
    (0x10CD, 0x10CD, 1, 0x2D2D); (0x13A0, 0x13EF, 1, 0xAB70); (0x13F0, 0x13F5, 1, 0x13F8);
    (0x1C90, 0x1CBA, 1, 0x10D0); (0x1CBD, 0x1CBF, 1, 0x10FD); (0x1E00, 0x1E94, 2, 0x1E01);
    (0x1E9E, 0x1E9E, 1, 0xDF); (0x1EA0, 0x1EFE, 2, 0x1EA1); (0x1F08, 0x1F0F, 1, 0x1F00);
    (0x1F18, 0x1F1D, 1, 0x1F10); (0x1F28, 0x1F2F, 1, 0x1F20); (0x1F38, 0x1F3F, 1, 0x1F30);
    (0x1F48, 0x1F4D, 1, 0x1F40); (0x1F59, 0x1F5F, 2, 0x1F51); (0x1F68, 0x1F6F, 1, 0x1F60);
    (0x1F88, 0x1F8F, 1, 0x1F80); (0x1F98, 0x1F9F, 1, 0x1F90); (0x1FA8, 0x1FAF, 1, 0x1FA0);
    (0x1FB8, 0x1FB9, 1, 0x1FB0); (0x1FBA, 0x1FBB, 1, 0x1F70); (0x1FBC, 0x1FBC, 1, 0x1FB3);
    (0x1FC8, 0x1FCB, 1, 0x1F72); (0x1FCC, 0x1FCC, 1, 0x1FC3); (0x1FD8, 0x1FD9, 1, 0x1FD0);
    (0x1FDA, 0x1FDB, 1, 0x1F76); (0x1FE8, 0x1FE9, 1, 0x1FE0); (0x1FEA, 0x1FEB, 1, 0x1F7A);
    (0x1FEC, 0x1FEC, 1, 0x1FE5); (0x1FF8, 0x1FF9, 1, 0x1F78); (0x1FFA, 0x1FFB, 1, 0x1F7C);
    (0x1FFC, 0x1FFC, 1, 0x1FF3); (0x2126, 0x2126, 1, 0x3C9); (0x212A, 0x212A, 1, 0x6B);
    (0x212B, 0x212B, 1, 0xE5); (0x2132, 0x2132, 1, 0x214E); (0x2160, 0x216F, 1, 0x2170);
    (0x2183, 0x2183, 1, 0x2184); (0x24B6, 0x24CF, 1, 0x24D0); (0x2C00, 0x2C2F, 1, 0x2C30);
    (0x2C60, 0x2C60, 1, 0x2C61); (0x2C62, 0x2C62, 1, 0x26B); (0x2C63, 0x2C63, 1, 0x1D7D);
    (0x2C64, 0x2C64, 1, 0x27D); (0x2C67, 0x2C6B, 2, 0x2C68); (0x2C6D, 0x2C6D, 1, 0x251);
    (0x2C6E, 0x2C6E, 1, 0x271); (0x2C6F, 0x2C6F, 1, 0x250); (0x2C70, 0x2C70, 1, 0x252);
    (0x2C72, 0x2C72, 1, 0x2C73); (0x2C75, 0x2C75, 1, 0x2C76); (0x2C7E, 0x2C7F, 1, 0x23F);
    (0x2C80, 0x2CE2, 2, 0x2C81); (0x2CEB, 0x2CED, 2, 0x2CEC); (0x2CF2, 0x2CF2, 1, 0x2CF3);
    (0xA640, 0xA66C, 2, 0xA641); (0xA680, 0xA69A, 2, 0xA681); (0xA722, 0xA72E, 2, 0xA723);
    (0xA732, 0xA76E, 2, 0xA733); (0xA779, 0xA77B, 2, 0xA77A); (0xA77D, 0xA77D, 1, 0x1D79);
    (0xA77E, 0xA786, 2, 0xA77F); (0xA78B, 0xA78B, 1, 0xA78C); (0xA78D, 0xA78D, 1, 0x265);
    (0xA790, 0xA792, 2, 0xA791); (0xA796, 0xA7A8, 2, 0xA797); (0xA7AA, 0xA7AA, 1, 0x266);
    (0xA7AB, 0xA7AB, 1, 0x25C); (0xA7AC, 0xA7AC, 1, 0x261); (0xA7AD, 0xA7AD, 1, 0x26C);
    (0xA7AE, 0xA7AE, 1, 0x26A); (0xA7B0, 0xA7B0, 1, 0x29E); (0xA7B1, 0xA7B1, 1, 0x287);
    (0xA7B2, 0xA7B2, 1, 0x29D); (0xA7B3, 0xA7B3, 1, 0xAB53); (0xA7B4, 0xA7C2, 2, 0xA7B5);
    (0xA7C4, 0xA7C4, 1, 0xA794); (0xA7C5, 0xA7C5, 1, 0x282); (0xA7C6, 0xA7C6, 1, 0x1D8E);
    (0xA7C7, 0xA7C9, 2, 0xA7C8); (0xA7D0, 0xA7D0, 1, 0xA7D1); (0xA7D6, 0xA7D8, 2, 0xA7D7);
    (0xA7F5, 0xA7F5, 1, 0xA7F6); (0xFF21, 0xFF3A, 1, 0xFF41); (0x10400, 0x10427, 1, 0x10428);
    (0x104B0, 0x104D3, 1, 0x104D8); (0x10570, 0x1057A, 1, 0x10597); (0x1057C, 0x1058A, 1, 0x105A3);
    (0x1058C, 0x10592, 1, 0x105B3); (0x10594, 0x10595, 1, 0x105BB); (0x10C80, 0x10CB2, 1, 0x10CC0);
    (0x118A0, 0x118BF, 1, 0x118C0); (0x16E40, 0x16E5F, 1, 0x16E60); (0x1E900, 0x1E921, 1, 0x1E922) ]%N.

(** The code points whose lower case is more than one code point. *)
Definition lower_special : list (N * list N) :=
  [
    (0x130, [0x69; 0x307]) ]%N.

(** The simple upper-case mapping above U+007F, in runs. *)
Definition upper_runs : list (N * N * N * N) :=
  [
    (0xB5, 0xB5, 1, 0x39C); (0xE0, 0xF6, 1, 0xC0); (0xF8, 0xFE, 1, 0xD8);
    (0xFF, 0xFF, 1, 0x178); (0x101, 0x12F, 2, 0x100); (0x131, 0x131, 1, 0x49);
    (0x133, 0x137, 2, 0x132); (0x13A, 0x148, 2, 0x139); (0x14B, 0x177, 2, 0x14A);
    (0x17A, 0x17E, 2, 0x179); (0x17F, 0x17F, 1, 0x53); (0x180, 0x180, 1, 0x243);
    (0x183, 0x185, 2, 0x182); (0x188, 0x188, 1, 0x187); (0x18C, 0x18C, 1, 0x18B);
    (0x192, 0x192, 1, 0x191); (0x195, 0x195, 1, 0x1F6); (0x199, 0x199, 1, 0x198);
    (0x19A, 0x19A, 1, 0x23D); (0x19E, 0x19E, 1, 0x220); (0x1A1, 0x1A5, 2, 0x1A0);
    (0x1A8, 0x1A8, 1, 0x1A7); (0x1AD, 0x1AD, 1, 0x1AC); (0x1B0, 0x1B0, 1, 0x1AF);
    (0x1B4, 0x1B6, 2, 0x1B3); (0x1B9, 0x1B9, 1, 0x1B8); (0x1BD, 0x1BD, 1, 0x1BC);
    (0x1BF, 0x1BF, 1, 0x1F7); (0x1C5, 0x1C5, 1, 0x1C4); (0x1C6, 0x1C6, 1, 0x1C4);
    (0x1C8, 0x1C8, 1, 0x1C7); (0x1C9, 0x1C9, 1, 0x1C7); (0x1CB, 0x1CB, 1, 0x1CA);
    (0x1CC, 0x1CC, 1, 0x1CA); (0x1CE, 0x1DC, 2, 0x1CD); (0x1DD, 0x1DD, 1, 0x18E);
    (0x1DF, 0x1EF, 2, 0x1DE); (0x1F2, 0x1F2, 1, 0x1F1); (0x1F3, 0x1F3, 1, 0x1F1);
    (0x1F5, 0x1F5, 1, 0x1F4); (0x1F9, 0x21F, 2, 0x1F8); (0x223, 0x233, 2, 0x222);
    (0x23C, 0x23C, 1, 0x23B); (0x23F, 0x240, 1, 0x2C7E); (0x242, 0x242, 1, 0x241);
    (0x247, 0x24F, 2, 0x246); (0x250, 0x250, 1, 0x2C6F); (0x251, 0x251, 1, 0x2C6D);
    (0x252, 0x252, 1, 0x2C70); (0x253, 0x253, 1, 0x181); (0x254, 0x254, 1, 0x186);
    (0x256, 0x257, 1, 0x189); (0x259, 0x259, 1, 0x18F); (0x25B, 0x25B, 1, 0x190);
    (0x25C, 0x25C, 1, 0xA7AB); (0x260, 0x260, 1, 0x193); (0x261, 0x261, 1, 0xA7AC);
    (0x263, 0x263, 1, 0x194); (0x265, 0x265, 1, 0xA78D); (0x266, 0x266, 1, 0xA7AA);
    (0x268, 0x268, 1, 0x197); (0x269, 0x269, 1, 0x196); (0x26A, 0x26A, 1, 0xA7AE);
    (0x26B, 0x26B, 1, 0x2C62); (0x26C, 0x26C, 1, 0xA7AD); (0x26F, 0x26F, 1, 0x19C);
    (0x271, 0x271, 1, 0x2C6E); (0x272, 0x272, 1, 0x19D); (0x275, 0x275, 1, 0x19F);
    (0x27D, 0x27D, 1, 0x2C64); (0x280, 0x280, 1, 0x1A6); (0x282, 0x282, 1, 0xA7C5);
    (0x283, 0x283, 1, 0x1A9); (0x287, 0x287, 1, 0xA7B1); (0x288, 0x288, 1, 0x1AE);
    (0x289, 0x289, 1, 0x244); (0x28A, 0x28B, 1, 0x1B1); (0x28C, 0x28C, 1, 0x245);
    (0x292, 0x292, 1, 0x1B7); (0x29D, 0x29D, 1, 0xA7B2); (0x29E, 0x29E, 1, 0xA7B0);
    (0x345, 0x345, 1, 0x399); (0x371, 0x373, 2, 0x370); (0x377, 0x377, 1, 0x376);
    (0x37B, 0x37D, 1, 0x3FD); (0x3AC, 0x3AC, 1, 0x386); (0x3AD, 0x3AF, 1, 0x388);
    (0x3B1, 0x3C1, 1, 0x391); (0x3C2, 0x3C2, 1, 0x3A3); (0x3C3, 0x3CB, 1, 0x3A3);
    (0x3CC, 0x3CC, 1, 0x38C); (0x3CD, 0x3CE, 1, 0x38E); (0x3D0, 0x3D0, 1, 0x392);
    (0x3D1, 0x3D1, 1, 0x398); (0x3D5, 0x3D5, 1, 0x3A6); (0x3D6, 0x3D6, 1, 0x3A0);
    (0x3D7, 0x3D7, 1, 0x3CF); (0x3D9, 0x3EF, 2, 0x3D8); (0x3F0, 0x3F0, 1, 0x39A);
    (0x3F1, 0x3F1, 1, 0x3A1); (0x3F2, 0x3F2, 1, 0x3F9); (0x3F3, 0x3F3, 1, 0x37F);
    (0x3F5, 0x3F5, 1, 0x395); (0x3F8, 0x3F8, 1, 0x3F7); (0x3FB, 0x3FB, 1, 0x3FA);
    (0x430, 0x44F, 1, 0x410); (0x450, 0x45F, 1, 0x400); (0x461, 0x481, 2, 0x460);
    (0x48B, 0x4BF, 2, 0x48A); (0x4C2, 0x4CE, 2, 0x4C1); (0x4CF, 0x4CF, 1, 0x4C0);
    (0x4D1, 0x52F, 2, 0x4D0); (0x561, 0x586, 1, 0x531); (0x10D0, 0x10FA, 1, 0x1C90);
    (0x10FD, 0x10FF, 1, 0x1CBD); (0x13F8, 0x13FD, 1, 0x13F0); (0x1C80, 0x1C80, 1, 0x412);
    (0x1C81, 0x1C81, 1, 0x414); (0x1C82, 0x1C82, 1, 0x41E); (0x1C83, 0x1C84, 1, 0x421);
    (0x1C85, 0x1C85, 1, 0x422); (0x1C86, 0x1C86, 1, 0x42A); (0x1C87, 0x1C87, 1, 0x462);
    (0x1C88, 0x1C88, 1, 0xA64A); (0x1D79, 0x1D79, 1, 0xA77D); (0x1D7D, 0x1D7D, 1, 0x2C63);
    (0x1D8E, 0x1D8E, 1, 0xA7C6); (0x1E01, 0x1E95, 2, 0x1E00); (0x1E9B, 0x1E9B, 1, 0x1E60);
    (0x1EA1, 0x1EFF, 2, 0x1EA0); (0x1F00, 0x1F07, 1, 0x1F08); (0x1F10, 0x1F15, 1, 0x1F18);
    (0x1F20, 0x1F27, 1, 0x1F28); (0x1F30, 0x1F37, 1, 0x1F38); (0x1F40, 0x1F45, 1, 0x1F48);
    (0x1F51, 0x1F57, 2, 0x1F59); (0x1F60, 0x1F67, 1, 0x1F68); (0x1F70, 0x1F71, 1, 0x1FBA);
    (0x1F72, 0x1F75, 1, 0x1FC8); (0x1F76, 0x1F77, 1, 0x1FDA); (0x1F78, 0x1F79, 1, 0x1FF8);
    (0x1F7A, 0x1F7B, 1, 0x1FEA); (0x1F7C, 0x1F7D, 1, 0x1FFA); (0x1FB0, 0x1FB1, 1, 0x1FB8);
    (0x1FBE, 0x1FBE, 1, 0x399); (0x1FD0, 0x1FD1, 1, 0x1FD8); (0x1FE0, 0x1FE1, 1, 0x1FE8);
    (0x1FE5, 0x1FE5, 1, 0x1FEC); (0x214E, 0x214E, 1, 0x2132); (0x2170, 0x217F, 1, 0x2160);
    (0x2184, 0x2184, 1, 0x2183); (0x24D0, 0x24E9, 1, 0x24B6); (0x2C30, 0x2C5F, 1, 0x2C00);
    (0x2C61, 0x2C61, 1, 0x2C60); (0x2C65, 0x2C65, 1, 0x23A); (0x2C66, 0x2C66, 1, 0x23E);
    (0x2C68, 0x2C6C, 2, 0x2C67); (0x2C73, 0x2C73, 1, 0x2C72); (0x2C76, 0x2C76, 1, 0x2C75);
    (0x2C81, 0x2CE3, 2, 0x2C80); (0x2CEC, 0x2CEE, 2, 0x2CEB); (0x2CF3, 0x2CF3, 1, 0x2CF2);
    (0x2D00, 0x2D25, 1, 0x10A0); (0x2D27, 0x2D27, 1, 0x10C7); (0x2D2D, 0x2D2D, 1, 0x10CD);
    (0xA641, 0xA66D, 2, 0xA640); (0xA681, 0xA69B, 2, 0xA680); (0xA723, 0xA72F, 2, 0xA722);
    (0xA733, 0xA76F, 2, 0xA732); (0xA77A, 0xA77C, 2, 0xA779); (0xA77F, 0xA787, 2, 0xA77E);
    (0xA78C, 0xA78C, 1, 0xA78B); (0xA791, 0xA793, 2, 0xA790); (0xA794, 0xA794, 1, 0xA7C4);
    (0xA797, 0xA7A9, 2, 0xA796); (0xA7B5, 0xA7C3, 2, 0xA7B4); (0xA7C8, 0xA7CA, 2, 0xA7C7);
    (0xA7D1, 0xA7D1, 1, 0xA7D0); (0xA7D7, 0xA7D9, 2, 0xA7D6); (0xA7F6, 0xA7F6, 1, 0xA7F5);
    (0xAB53, 0xAB53, 1, 0xA7B3); (0xAB70, 0xABBF, 1, 0x13A0); (0xFF41, 0xFF5A, 1, 0xFF21);
    (0x10428, 0x1044F, 1, 0x10400); (0x104D8, 0x104FB, 1, 0x104B0); (0x10597, 0x105A1, 1, 0x10570);
    (0x105A3, 0x105B1, 1, 0x1057C); (0x105B3, 0x105B9, 1, 0x1058C); (0x105BB, 0x105BC, 1, 0x10594);
    (0x10CC0, 0x10CF2, 1, 0x10C80); (0x118C0, 0x118DF, 1, 0x118A0); (0x16E60, 0x16E7F, 1, 0x16E40);
    (0x1E922, 0x1E943, 1, 0x1E900) ]%N.

(** The code points whose upper case is more than one code point. *)
Definition upper_special : list (N * list N) :=
  [
    (0xDF, [0x53; 0x53]); (0x149, [0x2BC; 0x4E]);
    (0x1F0, [0x4A; 0x30C]); (0x390, [0x399; 0x308; 0x301]);
    (0x3B0, [0x3A5; 0x308; 0x301]); (0x587, [0x535; 0x552]);
    (0x1E96, [0x48; 0x331]); (0x1E97, [0x54; 0x308]);
    (0x1E98, [0x57; 0x30A]); (0x1E99, [0x59; 0x30A]);
    (0x1E9A, [0x41; 0x2BE]); (0x1F50, [0x3A5; 0x313]);
    (0x1F52, [0x3A5; 0x313; 0x300]); (0x1F54, [0x3A5; 0x313; 0x301]);
    (0x1F56, [0x3A5; 0x313; 0x342]); (0x1F80, [0x1F08; 0x399]);
    (0x1F81, [0x1F09; 0x399]); (0x1F82, [0x1F0A; 0x399]);
    (0x1F83, [0x1F0B; 0x399]); (0x1F84, [0x1F0C; 0x399]);
    (0x1F85, [0x1F0D; 0x399]); (0x1F86, [0x1F0E; 0x399]);
    (0x1F87, [0x1F0F; 0x399]); (0x1F88, [0x1F08; 0x399]);
    (0x1F89, [0x1F09; 0x399]); (0x1F8A, [0x1F0A; 0x399]);
    (0x1F8B, [0x1F0B; 0x399]); (0x1F8C, [0x1F0C; 0x399]);
    (0x1F8D, [0x1F0D; 0x399]); (0x1F8E, [0x1F0E; 0x399]);
    (0x1F8F, [0x1F0F; 0x399]); (0x1F90, [0x1F28; 0x399]);
    (0x1F91, [0x1F29; 0x399]); (0x1F92, [0x1F2A; 0x399]);
    (0x1F93, [0x1F2B; 0x399]); (0x1F94, [0x1F2C; 0x399]);
    (0x1F95, [0x1F2D; 0x399]); (0x1F96, [0x1F2E; 0x399]);
    (0x1F97, [0x1F2F; 0x399]); (0x1F98, [0x1F28; 0x399]);
    (0x1F99, [0x1F29; 0x399]); (0x1F9A, [0x1F2A; 0x399]);
    (0x1F9B, [0x1F2B; 0x399]); (0x1F9C, [0x1F2C; 0x399]);
    (0x1F9D, [0x1F2D; 0x399]); (0x1F9E, [0x1F2E; 0x399]);
    (0x1F9F, [0x1F2F; 0x399]); (0x1FA0, [0x1F68; 0x399]);
    (0x1FA1, [0x1F69; 0x399]); (0x1FA2, [0x1F6A; 0x399]);
    (0x1FA3, [0x1F6B; 0x399]); (0x1FA4, [0x1F6C; 0x399]);
    (0x1FA5, [0x1F6D; 0x399]); (0x1FA6, [0x1F6E; 0x399]);
    (0x1FA7, [0x1F6F; 0x399]); (0x1FA8, [0x1F68; 0x399]);
    (0x1FA9, [0x1F69; 0x399]); (0x1FAA, [0x1F6A; 0x399]);
    (0x1FAB, [0x1F6B; 0x399]); (0x1FAC, [0x1F6C; 0x399]);
    (0x1FAD, [0x1F6D; 0x399]); (0x1FAE, [0x1F6E; 0x399]);
    (0x1FAF, [0x1F6F; 0x399]); (0x1FB2, [0x1FBA; 0x399]);
    (0x1FB3, [0x391; 0x399]); (0x1FB4, [0x386; 0x399]);
    (0x1FB6, [0x391; 0x342]); (0x1FB7, [0x391; 0x342; 0x399]);
    (0x1FBC, [0x391; 0x399]); (0x1FC2, [0x1FCA; 0x399]);
    (0x1FC3, [0x397; 0x399]); (0x1FC4, [0x389; 0x399]);
    (0x1FC6, [0x397; 0x342]); (0x1FC7, [0x397; 0x342; 0x399]);
    (0x1FCC, [0x397; 0x399]); (0x1FD2, [0x399; 0x308; 0x300]);
    (0x1FD3, [0x399; 0x308; 0x301]); (0x1FD6, [0x399; 0x342]);
    (0x1FD7, [0x399; 0x308; 0x342]); (0x1FE2, [0x3A5; 0x308; 0x300]);
    (0x1FE3, [0x3A5; 0x308; 0x301]); (0x1FE4, [0x3A1; 0x313]);
    (0x1FE6, [0x3A5; 0x342]); (0x1FE7, [0x3A5; 0x308; 0x342]);
    (0x1FF2, [0x1FFA; 0x399]); (0x1FF3, [0x3A9; 0x399]);
    (0x1FF4, [0x38F; 0x399]); (0x1FF6, [0x3A9; 0x342]);
    (0x1FF7, [0x3A9; 0x342; 0x399]); (0x1FFC, [0x3A9; 0x399]);
    (0xFB00, [0x46; 0x46]); (0xFB01, [0x46; 0x49]);
    (0xFB02, [0x46; 0x4C]); (0xFB03, [0x46; 0x46; 0x49]);
    (0xFB04, [0x46; 0x46; 0x4C]); (0xFB05, [0x53; 0x54]);
    (0xFB06, [0x53; 0x54]); (0xFB13, [0x544; 0x546]);
    (0xFB14, [0x544; 0x535]); (0xFB15, [0x544; 0x53B]);
    (0xFB16, [0x54E; 0x546]); (0xFB17, [0x544; 0x53D]) ]%N.

(** The code points with the property Cased, in ranges [(first, last)]. *)
Definition cased_ranges : list (N * N) :=
  [
    (0x41, 0x5A); (0x61, 0x7A); (0xAA, 0xAA); (0xB5, 0xB5);
    (0xBA, 0xBA); (0xC0, 0xD6); (0xD8, 0xF6); (0xF8, 0x1BA);
    (0x1BC, 0x1BF); (0x1C4, 0x293); (0x295, 0x2B8); (0x2C0, 0x2C1);
    (0x2E0, 0x2E4); (0x345, 0x345); (0x370, 0x373); (0x376, 0x377);
    (0x37A, 0x37D); (0x37F, 0x37F); (0x386, 0x386); (0x388, 0x38A);
    (0x38C, 0x38C); (0x38E, 0x3A1); (0x3A3, 0x3F5); (0x3F7, 0x481);
    (0x48A, 0x52F); (0x531, 0x556); (0x560, 0x588); (0x10A0, 0x10C5);
    (0x10C7, 0x10C7); (0x10CD, 0x10CD); (0x10D0, 0x10FA); (0x10FD, 0x10FF);
    (0x13A0, 0x13F5); (0x13F8, 0x13FD); (0x1C80, 0x1C88); (0x1C90, 0x1CBA);
    (0x1CBD, 0x1CBF); (0x1D00, 0x1DBF); (0x1E00, 0x1F15); (0x1F18, 0x1F1D);
    (0x1F20, 0x1F45); (0x1F48, 0x1F4D); (0x1F50, 0x1F57); (0x1F59, 0x1F59);
    (0x1F5B, 0x1F5B); (0x1F5D, 0x1F5D); (0x1F5F, 0x1F7D); (0x1F80, 0x1FB4);
    (0x1FB6, 0x1FBC); (0x1FBE, 0x1FBE); (0x1FC2, 0x1FC4); (0x1FC6, 0x1FCC);
    (0x1FD0, 0x1FD3); (0x1FD6, 0x1FDB); (0x1FE0, 0x1FEC); (0x1FF2, 0x1FF4);
    (0x1FF6, 0x1FFC); (0x2071, 0x2071); (0x207F, 0x207F); (0x2090, 0x209C);
    (0x2102, 0x2102); (0x2107, 0x2107); (0x210A, 0x2113); (0x2115, 0x2115);
    (0x2119, 0x211D); (0x2124, 0x2124); (0x2126, 0x2126); (0x2128, 0x2128);
    (0x212A, 0x212D); (0x212F, 0x2134); (0x2139, 0x2139); (0x213C, 0x213F);
    (0x2145, 0x2149); (0x214E, 0x214E); (0x2160, 0x217F); (0x2183, 0x2184);
    (0x24B6, 0x24E9); (0x2C00, 0x2CE4); (0x2CEB, 0x2CEE); (0x2CF2, 0x2CF3);
    (0x2D00, 0x2D25); (0x2D27, 0x2D27); (0x2D2D, 0x2D2D); (0xA640, 0xA66D);
    (0xA680, 0xA69D); (0xA722, 0xA787); (0xA78B, 0xA78E); (0xA790, 0xA7CA);
    (0xA7D0, 0xA7D1); (0xA7D3, 0xA7D3); (0xA7D5, 0xA7D9); (0xA7F5, 0xA7F6);
    (0xA7F8, 0xA7FA); (0xAB30, 0xAB5A); (0xAB5C, 0xAB68); (0xAB70, 0xABBF);
    (0xFB00, 0xFB06); (0xFB13, 0xFB17); (0xFF21, 0xFF3A); (0xFF41, 0xFF5A);
    (0x10400, 0x1044F); (0x104B0, 0x104D3); (0x104D8, 0x104FB); (0x10570, 0x1057A);
    (0x1057C, 0x1058A); (0x1058C, 0x10592); (0x10594, 0x10595); (0x10597, 0x105A1);
    (0x105A3, 0x105B1); (0x105B3, 0x105B9); (0x105BB, 0x105BC); (0x10780, 0x10780);
    (0x10783, 0x10785); (0x10787, 0x107B0); (0x107B2, 0x107BA); (0x10C80, 0x10CB2);
    (0x10CC0, 0x10CF2); (0x118A0, 0x118DF); (0x16E40, 0x16E7F); (0x1D400, 0x1D454);
    (0x1D456, 0x1D49C); (0x1D49E, 0x1D49F); (0x1D4A2, 0x1D4A2); (0x1D4A5, 0x1D4A6);
    (0x1D4A9, 0x1D4AC); (0x1D4AE, 0x1D4B9); (0x1D4BB, 0x1D4BB); (0x1D4BD, 0x1D4C3);
    (0x1D4C5, 0x1D505); (0x1D507, 0x1D50A); (0x1D50D, 0x1D514); (0x1D516, 0x1D51C);
    (0x1D51E, 0x1D539); (0x1D53B, 0x1D53E); (0x1D540, 0x1D544); (0x1D546, 0x1D546);
    (0x1D54A, 0x1D550); (0x1D552, 0x1D6A5); (0x1D6A8, 0x1D6C0); (0x1D6C2, 0x1D6DA);
    (0x1D6DC, 0x1D6FA); (0x1D6FC, 0x1D714); (0x1D716, 0x1D734); (0x1D736, 0x1D74E);
    (0x1D750, 0x1D76E); (0x1D770, 0x1D788); (0x1D78A, 0x1D7A8); (0x1D7AA, 0x1D7C2);
    (0x1D7C4, 0x1D7CB); (0x1DF00, 0x1DF09); (0x1DF0B, 0x1DF1E); (0x1E900, 0x1E943);
    (0x1F130, 0x1F149); (0x1F150, 0x1F169); (0x1F170, 0x1F189) ]%N.

(** The code points with the property Case_Ignorable, in ranges. *)
Definition case_ignorable_ranges : list (N * N) :=
  [
    (0x27, 0x27); (0x2E, 0x2E); (0x3A, 0x3A); (0x5E, 0x5E);
    (0x60, 0x60); (0xA8, 0xA8); (0xAD, 0xAD); (0xAF, 0xAF);
    (0xB4, 0xB4); (0xB7, 0xB8); (0x2B0, 0x36F); (0x374, 0x375);
    (0x37A, 0x37A); (0x384, 0x385); (0x387, 0x387); (0x483, 0x489);
    (0x559, 0x559); (0x55F, 0x55F); (0x591, 0x5BD); (0x5BF, 0x5BF);
    (0x5C1, 0x5C2); (0x5C4, 0x5C5); (0x5C7, 0x5C7); (0x5F4, 0x5F4);
    (0x600, 0x605); (0x610, 0x61A); (0x61C, 0x61C); (0x640, 0x640);
    (0x64B, 0x65F); (0x670, 0x670); (0x6D6, 0x6DD); (0x6DF, 0x6E8);
    (0x6EA, 0x6ED); (0x70F, 0x70F); (0x711, 0x711); (0x730, 0x74A);
    (0x7A6, 0x7B0); (0x7EB, 0x7F5); (0x7FA, 0x7FA); (0x7FD, 0x7FD);
    (0x816, 0x82D); (0x859, 0x85B); (0x888, 0x888); (0x890, 0x891);
    (0x898, 0x89F); (0x8C9, 0x902); (0x93A, 0x93A); (0x93C, 0x93C);
    (0x941, 0x948); (0x94D, 0x94D); (0x951, 0x957); (0x962, 0x963);
    (0x971, 0x971); (0x981, 0x981); (0x9BC, 0x9BC); (0x9C1, 0x9C4);
    (0x9CD, 0x9CD); (0x9E2, 0x9E3); (0x9FE, 0x9FE); (0xA01, 0xA02);
    (0xA3C, 0xA3C); (0xA41, 0xA42); (0xA47, 0xA48); (0xA4B, 0xA4D);
    (0xA51, 0xA51); (0xA70, 0xA71); (0xA75, 0xA75); (0xA81, 0xA82);
    (0xABC, 0xABC); (0xAC1, 0xAC5); (0xAC7, 0xAC8); (0xACD, 0xACD);
    (0xAE2, 0xAE3); (0xAFA, 0xAFF); (0xB01, 0xB01); (0xB3C, 0xB3C);
    (0xB3F, 0xB3F); (0xB41, 0xB44); (0xB4D, 0xB4D); (0xB55, 0xB56);
    (0xB62, 0xB63); (0xB82, 0xB82); (0xBC0, 0xBC0); (0xBCD, 0xBCD);
    (0xC00, 0xC00); (0xC04, 0xC04); (0xC3C, 0xC3C); (0xC3E, 0xC40);
    (0xC46, 0xC48); (0xC4A, 0xC4D); (0xC55, 0xC56); (0xC62, 0xC63);
    (0xC81, 0xC81); (0xCBC, 0xCBC); (0xCBF, 0xCBF); (0xCC6, 0xCC6);
    (0xCCC, 0xCCD); (0xCE2, 0xCE3); (0xD00, 0xD01); (0xD3B, 0xD3C);
    (0xD41, 0xD44); (0xD4D, 0xD4D); (0xD62, 0xD63); (0xD81, 0xD81);
    (0xDCA, 0xDCA); (0xDD2, 0xDD4); (0xDD6, 0xDD6); (0xE31, 0xE31);
    (0xE34, 0xE3A); (0xE46, 0xE4E); (0xEB1, 0xEB1); (0xEB4, 0xEBC);
    (0xEC6, 0xEC6); (0xEC8, 0xECD); (0xF18, 0xF19); (0xF35, 0xF35);
    (0xF37, 0xF37); (0xF39, 0xF39); (0xF71, 0xF7E); (0xF80, 0xF84);
    (0xF86, 0xF87); (0xF8D, 0xF97); (0xF99, 0xFBC); (0xFC6, 0xFC6);
    (0x102D, 0x1030); (0x1032, 0x1037); (0x1039, 0x103A); (0x103D, 0x103E);
    (0x1058, 0x1059); (0x105E, 0x1060); (0x1071, 0x1074); (0x1082, 0x1082);
    (0x1085, 0x1086); (0x108D, 0x108D); (0x109D, 0x109D); (0x10FC, 0x10FC);
    (0x135D, 0x135F); (0x1712, 0x1714); (0x1732, 0x1733); (0x1752, 0x1753);
    (0x1772, 0x1773); (0x17B4, 0x17B5); (0x17B7, 0x17BD); (0x17C6, 0x17C6);
    (0x17C9, 0x17D3); (0x17D7, 0x17D7); (0x17DD, 0x17DD); (0x180B, 0x180F);
    (0x1843, 0x1843); (0x1885, 0x1886); (0x18A9, 0x18A9); (0x1920, 0x1922);
    (0x1927, 0x1928); (0x1932, 0x1932); (0x1939, 0x193B); (0x1A17, 0x1A18);
    (0x1A1B, 0x1A1B); (0x1A56, 0x1A56); (0x1A58, 0x1A5E); (0x1A60, 0x1A60);
    (0x1A62, 0x1A62); (0x1A65, 0x1A6C); (0x1A73, 0x1A7C); (0x1A7F, 0x1A7F);
    (0x1AA7, 0x1AA7); (0x1AB0, 0x1ACE); (0x1B00, 0x1B03); (0x1B34, 0x1B34);
    (0x1B36, 0x1B3A); (0x1B3C, 0x1B3C); (0x1B42, 0x1B42); (0x1B6B, 0x1B73);
    (0x1B80, 0x1B81); (0x1BA2, 0x1BA5); (0x1BA8, 0x1BA9); (0x1BAB, 0x1BAD);
    (0x1BE6, 0x1BE6); (0x1BE8, 0x1BE9); (0x1BED, 0x1BED); (0x1BEF, 0x1BF1);
    (0x1C2C, 0x1C33); (0x1C36, 0x1C37); (0x1C78, 0x1C7D); (0x1CD0, 0x1CD2);
    (0x1CD4, 0x1CE0); (0x1CE2, 0x1CE8); (0x1CED, 0x1CED); (0x1CF4, 0x1CF4);
    (0x1CF8, 0x1CF9); (0x1D2C, 0x1D6A); (0x1D78, 0x1D78); (0x1D9B, 0x1DFF);
    (0x1FBD, 0x1FBD); (0x1FBF, 0x1FC1); (0x1FCD, 0x1FCF); (0x1FDD, 0x1FDF);
    (0x1FED, 0x1FEF); (0x1FFD, 0x1FFE); (0x200B, 0x200F); (0x2018, 0x2019);
    (0x2024, 0x2024); (0x2027, 0x2027); (0x202A, 0x202E); (0x2060, 0x2064);
    (0x2066, 0x206F); (0x2071, 0x2071); (0x207F, 0x207F); (0x2090, 0x209C);
    (0x20D0, 0x20F0); (0x2C7C, 0x2C7D); (0x2CEF, 0x2CF1); (0x2D6F, 0x2D6F);
    (0x2D7F, 0x2D7F); (0x2DE0, 0x2DFF); (0x2E2F, 0x2E2F); (0x3005, 0x3005);
    (0x302A, 0x302D); (0x3031, 0x3035); (0x303B, 0x303B); (0x3099, 0x309E);
    (0x30FC, 0x30FE); (0xA015, 0xA015); (0xA4F8, 0xA4FD); (0xA60C, 0xA60C);
    (0xA66F, 0xA672); (0xA674, 0xA67D); (0xA67F, 0xA67F); (0xA69C, 0xA69F);
    (0xA6F0, 0xA6F1); (0xA700, 0xA721); (0xA770, 0xA770); (0xA788, 0xA78A);
    (0xA7F2, 0xA7F4); (0xA7F8, 0xA7F9); (0xA802, 0xA802); (0xA806, 0xA806);
    (0xA80B, 0xA80B); (0xA825, 0xA826); (0xA82C, 0xA82C); (0xA8C4, 0xA8C5);
    (0xA8E0, 0xA8F1); (0xA8FF, 0xA8FF); (0xA926, 0xA92D); (0xA947, 0xA951);
    (0xA980, 0xA982); (0xA9B3, 0xA9B3); (0xA9B6, 0xA9B9); (0xA9BC, 0xA9BD);
    (0xA9CF, 0xA9CF); (0xA9E5, 0xA9E6); (0xAA29, 0xAA2E); (0xAA31, 0xAA32);
    (0xAA35, 0xAA36); (0xAA43, 0xAA43); (0xAA4C, 0xAA4C); (0xAA70, 0xAA70);
    (0xAA7C, 0xAA7C); (0xAAB0, 0xAAB0); (0xAAB2, 0xAAB4); (0xAAB7, 0xAAB8);
    (0xAABE, 0xAABF); (0xAAC1, 0xAAC1); (0xAADD, 0xAADD); (0xAAEC, 0xAAED);
    (0xAAF3, 0xAAF4); (0xAAF6, 0xAAF6); (0xAB5B, 0xAB5F); (0xAB69, 0xAB6B);
    (0xABE5, 0xABE5); (0xABE8, 0xABE8); (0xABED, 0xABED); (0xFB1E, 0xFB1E);
    (0xFBB2, 0xFBC2); (0xFE00, 0xFE0F); (0xFE13, 0xFE13); (0xFE20, 0xFE2F);
    (0xFE52, 0xFE52); (0xFE55, 0xFE55); (0xFEFF, 0xFEFF); (0xFF07, 0xFF07);
    (0xFF0E, 0xFF0E); (0xFF1A, 0xFF1A); (0xFF3E, 0xFF3E); (0xFF40, 0xFF40);
    (0xFF70, 0xFF70); (0xFF9E, 0xFF9F); (0xFFE3, 0xFFE3); (0xFFF9, 0xFFFB);
    (0x101FD, 0x101FD); (0x102E0, 0x102E0); (0x10376, 0x1037A); (0x10780, 0x10785);
    (0x10787, 0x107B0); (0x107B2, 0x107BA); (0x10A01, 0x10A03); (0x10A05, 0x10A06);
    (0x10A0C, 0x10A0F); (0x10A38, 0x10A3A); (0x10A3F, 0x10A3F); (0x10AE5, 0x10AE6);
    (0x10D24, 0x10D27); (0x10EAB, 0x10EAC); (0x10F46, 0x10F50); (0x10F82, 0x10F85);
    (0x11001, 0x11001); (0x11038, 0x11046); (0x11070, 0x11070); (0x11073, 0x11074);
    (0x1107F, 0x11081); (0x110B3, 0x110B6); (0x110B9, 0x110BA); (0x110BD, 0x110BD);
    (0x110C2, 0x110C2); (0x110CD, 0x110CD); (0x11100, 0x11102); (0x11127, 0x1112B);
    (0x1112D, 0x11134); (0x11173, 0x11173); (0x11180, 0x11181); (0x111B6, 0x111BE);
    (0x111C9, 0x111CC); (0x111CF, 0x111CF); (0x1122F, 0x11231); (0x11234, 0x11234);
    (0x11236, 0x11237); (0x1123E, 0x1123E); (0x112DF, 0x112DF); (0x112E3, 0x112EA);
    (0x11300, 0x11301); (0x1133B, 0x1133C); (0x11340, 0x11340); (0x11366, 0x1136C);
    (0x11370, 0x11374); (0x11438, 0x1143F); (0x11442, 0x11444); (0x11446, 0x11446);
    (0x1145E, 0x1145E); (0x114B3, 0x114B8); (0x114BA, 0x114BA); (0x114BF, 0x114C0);
    (0x114C2, 0x114C3); (0x115B2, 0x115B5); (0x115BC, 0x115BD); (0x115BF, 0x115C0);
    (0x115DC, 0x115DD); (0x11633, 0x1163A); (0x1163D, 0x1163D); (0x1163F, 0x11640);
    (0x116AB, 0x116AB); (0x116AD, 0x116AD); (0x116B0, 0x116B5); (0x116B7, 0x116B7);
    (0x1171D, 0x1171F); (0x11722, 0x11725); (0x11727, 0x1172B); (0x1182F, 0x11837);
    (0x11839, 0x1183A); (0x1193B, 0x1193C); (0x1193E, 0x1193E); (0x11943, 0x11943);
    (0x119D4, 0x119D7); (0x119DA, 0x119DB); (0x119E0, 0x119E0); (0x11A01, 0x11A0A);
    (0x11A33, 0x11A38); (0x11A3B, 0x11A3E); (0x11A47, 0x11A47); (0x11A51, 0x11A56);
    (0x11A59, 0x11A5B); (0x11A8A, 0x11A96); (0x11A98, 0x11A99); (0x11C30, 0x11C36);
    (0x11C38, 0x11C3D); (0x11C3F, 0x11C3F); (0x11C92, 0x11CA7); (0x11CAA, 0x11CB0);
    (0x11CB2, 0x11CB3); (0x11CB5, 0x11CB6); (0x11D31, 0x11D36); (0x11D3A, 0x11D3A);
    (0x11D3C, 0x11D3D); (0x11D3F, 0x11D45); (0x11D47, 0x11D47); (0x11D90, 0x11D91);
    (0x11D95, 0x11D95); (0x11D97, 0x11D97); (0x11EF3, 0x11EF4); (0x13430, 0x13438);
    (0x16AF0, 0x16AF4); (0x16B30, 0x16B36); (0x16B40, 0x16B43); (0x16F4F, 0x16F4F);
    (0x16F8F, 0x16F9F); (0x16FE0, 0x16FE1); (0x16FE3, 0x16FE4); (0x1AFF0, 0x1AFF3);
    (0x1AFF5, 0x1AFFB); (0x1AFFD, 0x1AFFE); (0x1BC9D, 0x1BC9E); (0x1BCA0, 0x1BCA3);
    (0x1CF00, 0x1CF2D); (0x1CF30, 0x1CF46); (0x1D167, 0x1D169); (0x1D173, 0x1D182);
    (0x1D185, 0x1D18B); (0x1D1AA, 0x1D1AD); (0x1D242, 0x1D244); (0x1DA00, 0x1DA36);
    (0x1DA3B, 0x1DA6C); (0x1DA75, 0x1DA75); (0x1DA84, 0x1DA84); (0x1DA9B, 0x1DA9F);
    (0x1DAA1, 0x1DAAF); (0x1E000, 0x1E006); (0x1E008, 0x1E018); (0x1E01B, 0x1E021);
    (0x1E023, 0x1E024); (0x1E026, 0x1E02A); (0x1E130, 0x1E13D); (0x1E2AE, 0x1E2AE);
    (0x1E2EC, 0x1E2EF); (0x1E8D0, 0x1E8D6); (0x1E944, 0x1E94B); (0x1F3FB, 0x1F3FF);
    (0xE0001, 0xE0001); (0xE0020, 0xE007F); (0xE0100, 0xE01EF) ]%N.

Definition is_cased (c : N) : bool := in_ranges cased_ranges c.

Definition is_case_ignorable (c : N) : bool :=
  in_ranges case_ignorable_ranges c.

(** The full lower case of one code point, capital sigma apart. *)
Definition to_lower_full (c : N) : list N :=
  if (c <? 0x80)%N
  then [if ((0x41 <=? c) && (c <=? 0x5A))%N then (c + 0x20)%N else c]
  else match special_map lower_special c with
       | Some l => l
       | None => [simple_map lower_runs c]
       end.

(** The full upper case of one code point. *)
Definition to_upper_full (c : N) : list N :=
  if (c <? 0x80)%N
  then [if ((0x61 <=? c) && (c <=? 0x7A))%N then (c - 0x20)%N else c]
  else match special_map upper_special c with
       | Some l => l
       | None => [simple_map upper_runs c]
       end.

Fixpoint skip_case_ignorable (l : list N) : list N :=
  match l with
  | [] => []
  | c :: r => if is_case_ignorable c then skip_case_ignorable r else l
  end.

(** Capital sigma, U+03A3, becomes the final sigma U+03C2 when a cased
    letter stands before it and none after it, case-ignorable code points
    skipped on both sides; otherwise it becomes U+03C3. [before] holds the
    preceding code points, the nearest first. *)
Definition lower_sigma (before after : list N) : N :=
  let cased_before :=
    match skip_case_ignorable before with
    | c :: _ => is_cased c
    | [] => false
    end in
  let cased_after :=
    match skip_case_ignorable after with
    | c :: _ => is_cased c
    | [] => false
    end in
  if cased_before && negb cased_after then 0x3C2%N else 0x3C3%N.

Fixpoint lower_from (before cps : list N) : list N :=
  match cps with
  | [] => []
  | c :: r =>
      ((if (c =? 0x3A3)%N then [lower_sigma before r] else to_lower_full c)
       ++ lower_from (c :: before) r)%list
  end.

Definition lower (cps : list N) : list N := lower_from [] cps.

Definition upper (cps : list N) : list N := flat_map to_upper_full cps.

End Unicode.

(** ** The Python builtins the engine calls *)

Module Py.

(** [str.lower] and [str.upper] on one ASCII character: a character code
    in 65..90 is an upper-case letter, one in 97..122 a lower-case one. *)
Definition lower_char (c : ascii) : ascii :=
  let n := nat_of_ascii c in
  if ((65 <=? n) && (n <=? 90))%nat then ascii_of_nat (n + 32) else c.

Definition upper_char (c : ascii) : ascii :=
  let n := nat_of_ascii c in
  if ((97 <=? n) && (n <=? 122))%nat then ascii_of_nat (n - 32) else c.

(** [s.lower()] and [s.upper()]: the code points of [s] in lower or upper
    case, by the Unicode mappings. *)
Definition lower (s : string) : string :=
  Unicode.encode (Unicode.lower (Unicode.decode s)).

Definition upper (s : string) : string :=
  Unicode.encode (Unicode.upper (Unicode.decode s)).

(** Truth value of a [str]: only the empty string is false. *)
Definition truthy (s : string) : bool :=
  match s with
  | EmptyString => false
  | String _ _ => true
  end.

(** Truth value of an [Optional[str]]: [None] is false. *)
Definition truthy_opt (o : option string) : bool :=
  match o with
  | None => false
  | Some s => truthy s
  end.

(** [a or b] on an [Optional[str]] with a [str] default. *)
Definition or_else (o : option string) (d : string) : string :=
  match o with
  | Some s => if truthy s then s else d
  | None => d
  end.

(** A [dict] with string keys, as the list of its items in iteration
    order. *)
Definition dict (V : Type) : Type := list (string * V).

(** [d.get(k)]: the value stored under [k], or [None]. *)
Fixpoint get {V : Type} (d : dict V) (k : string) : option V :=
  match d with
  | [] => None
  | (k', v) :: r => if String.eqb k' k then Some v else get r k
  end.

(** [d.get(k, default)]. *)
Definition get_default {V : Type} (d : dict V) (k : string) (default : V) : V :=
  match get d k with
  | Some v => v
  | None => default
  end.

(** The comparison [a > b] of two floats. *)
Definition gt (a b : float) : bool := PrimFloat.ltb b a.

(** The loop of [max(items, key=lambda x: x[1])]: the running maximum is
    replaced only by an item whose key is strictly greater ([>]), so among
    equal keys the item met first stays. *)
Fixpoint max_loop (best : string * float) (rest : list (string * float))
  : string * float :=
  match rest with
  | [] => best
  | x :: r => max_loop (if gt (snd x) (snd best) then x else best) r
  end.

(** [max(d.items(), key=lambda x: x[1])[0] if d else None]. *)
Definition top_label (d : dict float) : option string :=
  match d with
  | [] => None
  | x :: r => Some (fst (max_loop x r))
  end.

End Py.

Arguments Py.lower : simpl never.
Arguments Py.upper : simpl never.

(** ** Exceptions, return values and the method monad *)

(** The exceptions [transitions] raises when an event cannot fire:
    [ValueError] for a model state that is not registered with the machine,
    [MachineError] for an event with no transition from the model's state,
    and [AttributeError] for a trigger the machine never defined. *)
Inductive exn : Type :=
| ValueError
| MachineError
| AttributeError.

Inductive result (A : Type) : Type :=
| Ok (a : A)
| Raise (e : exn).
Arguments Ok {A} a.
Arguments Raise {A} e.

(** What a method hands back to its caller: a [def] that ends without a
    [return] statement gives [None]. *)
Inductive value : Type :=
| PyNone
| PyBool (b : bool)
| PyStr (s : string).

(** ** The machine object *)

(** The fields of an [EmotionFSM] instance: [state], the attribute that
    [transitions.Machine] maintains on its model, and [mood_score]. *)
Record EmotionFSM : Type := mkFSM {
  state : string;
  mood_score : Py.dict float
}.

Definition set_state (s : string) (self : EmotionFSM) : EmotionFSM :=
  {| state := s; mood_score := mood_score self |}.

(** A method of the object: it runs on the fields and either returns a value
    with the fields afterwards or raises. *)
Definition M (A : Type) : Type := EmotionFSM -> result (A * EmotionFSM).

Definition ret {A : Type} (a : A) : M A := fun self => Ok (a, self).

Definition bind {A B : Type} (c : M A) (k : A -> M B) : M B :=
  fun self =>
    match c self with
    | Ok (a, self') => k a self'
    | Raise e => Raise e
    end.

Notation "x <- c ;; k" := (bind c (fun x => k))
  (at level 61, c at next level, right associativity).
Notation "c ;;; k" := (bind c (fun _ => k))
  (at level 61, right associativity).

(** Reading [self.state]. *)
Definition read_state : M string := fun self => Ok (state self, self).

(** ** Class attributes *)

Definition states : list string :=
  ["Neutral"; "Happy"; "Sad"; "Angry"; "Surprised"; "Fearful"; "Curious"].

Record transition : Type := mkTransition {
  trigger : string;
  source : string;
  dest : string
}.

Definition transitions_def : list transition :=
  [ mkTransition "to_happy" "*" "Happy";
    mkTransition "to_sad" "*" "Sad";
    mkTransition "to_angry" "*" "Angry";
    mkTransition "to_neutral" "*" "Neutral";
    mkTransition "to_surprised" "*" "Surprised";
    mkTransition "to_fearful" "*" "Fearful";
    mkTransition "to_curious" "*" "Curious" ].

(** ** The [transitions.Machine] built in [__init__] *)

Definition registered (s : string) : bool := existsb (String.eqb s) states.

(** A transition applies in a model state when its source is that state or
    the wildcard ["*"], which stands for every registered state. *)
Definition applies (name current : string) (t : transition) : bool :=
  String.eqb (trigger t) name
  && (String.eqb (source t) "*" || String.eqb (source t) current).

(** Calling the trigger method [name] on the model. The machine looks up the
    model's state among its registered states, takes the first transition
    of the event that leaves that state, and moves the model to its
    destination; the call returns [True]. With [auto_transitions=False] the
    only triggers are those of [transitions_def]. *)
Definition fire (name : string) : M value :=
  fun self =>
    if negb (existsb (fun t => String.eqb (trigger t) name) transitions_def)
    then Raise AttributeError
    else if negb (registered (state self)) then Raise ValueError
    else match find (applies name (state self)) transitions_def with
         | Some t => Ok (PyBool true, set_state (dest t) self)
         | None => Raise MachineError
         end.

Definition to_happy : M value := fire "to_happy".
Definition to_sad : M value := fire "to_sad".
Definition to_angry : M value := fire "to_angry".
Definition to_neutral : M value := fire "to_neutral".
Definition to_surprised : M value := fire "to_surprised".
Definition to_fearful : M value := fire "to_fearful".
Definition to_curious : M value := fire "to_curious".

(** [EmotionFSM()]: the machine starts in ["Neutral"] and every mood score
    is [0.0]. *)
Definition __init__ : EmotionFSM :=
  {| state := "Neutral";
     mood_score := map (fun s => (s, 0%float)) states |}.

(** ** Logic *)

(** The dispatch table of [_apply_transition]. *)
Definition trigger_mapping : Py.dict (M value) :=
  [ ("Happy", to_happy);
    ("Sad", to_sad);
    ("Angry", to_angry);
    ("Neutral", to_neutral);
    ("Surprised", to_surprised);
    ("Fearful", to_fearful);
    ("Curious", to_curious) ].

(** Fire the trigger for a target state; a name that is not in the table
    gets [to_neutral]. The method has no [return] statement. *)
Definition _apply_transition (target_state : string) : M value :=
  let trigger := Py.get_default trigger_mapping target_state to_neutral in
  trigger ;;;
  ret PyNone.

(** The label table of [update_from_nlp]. *)
Definition mapping : Py.dict string :=
  [ ("joy", "Happy"); ("happy", "Happy");
    ("sadness", "Sad"); ("sad", "Sad");
    ("anger", "Angry"); ("angry", "Angry");
    ("surprise", "Surprised"); ("surprised", "Surprised");
    ("fear", "Fearful"); ("fearful", "Fearful");
    ("neutral", "Neutral");
    ("disgust", "Angry"); ("trust", "Curious");
    ("anticipation", "Curious"); ("curious", "Curious") ].

(** The target state [update_from_nlp] computes before it touches the
    machine: the value of [chosen_state or "Neutral"]. *)
Definition chosen_target (emotion_scores sentiment_scores : Py.dict float)
  : string :=
  let top_emo := Py.top_label emotion_scores in
  let top_sent := Py.top_label sentiment_scores in
  let chosen_state : option string := None in
  let chosen_state :=
    if Py.truthy_opt top_emo
    then match top_emo with
         | Some l => Py.get mapping (Py.lower l)
         | None => chosen_state
         end
    else chosen_state in
  let chosen_state :=
    if negb (Py.truthy_opt chosen_state) && Py.truthy_opt top_sent
    then match top_sent with
         | Some l =>
             if String.eqb (Py.upper l) "POSITIVE" then Some "Happy"
             else if String.eqb (Py.upper l) "NEGATIVE" then Some "Sad"
             else Some "Neutral"
         | None => chosen_state
         end
    else chosen_state in
  Py.or_else chosen_state "Neutral".

(** Update the state from the emotion and sentiment outputs and return
    [self.state]. *)
Definition update_from_nlp (emotion_scores sentiment_scores : Py.dict float)
  : M value :=
  _apply_transition (chosen_target emotion_scores sentiment_scores) ;;;
  s <- read_state ;;
  ret (PyStr s).

(** ** Visualization *)

(** The statements a [graphviz.Digraph] collects in its body; [dot.source]
    is their DOT text, one line per statement in this order. *)
Inductive stmt : Type :=
| GraphAttr (key val : string)
| Node (name : string) (attrs : list (string * string))
| Edge (tail head : string) (attrs : list (string * string)).

Record Digraph : Type := mkDigraph {
  format : string;
  body : list stmt
}.

Definition highlighted : list (string * string) :=
  [("style", "filled"); ("color", "lightblue")].

(** Render the machine with the current state highlighted: one node per
    state, then one edge per ordered pair of different states. The code
    reads the state with [getattr(self, "state", "Neutral")]; the attribute
    is set on the model when [__init__] builds the machine, so the default
    is never taken and the read is that of [self.state]. *)
Definition get_graphviz_source : M Digraph :=
  current <- read_state ;;
  let nodes :=
    map (fun s => if String.eqb s current then Node s highlighted else Node s [])
        states in
  let edges :=
    flat_map (fun s =>
      flat_map (fun t =>
        if negb (String.eqb s t) then [Edge s t [("arrowhead", "vee")]] else [])
        states)
      states in
  ret {| format := "png";
         body := GraphAttr "rankdir" "LR" :: nodes ++ edges |}.

(** ** Reachable machines *)

(** The objects a host can hold: the one [EmotionFSM()] builds, and whatever
    a successful call of one of the three methods leaves behind. *)
Inductive reachable : EmotionFSM -> Prop :=
| reach_init : reachable __init__
| reach_update emo sent self v self' :
    reachable self ->
    update_from_nlp emo sent self = Ok (v, self') ->
    reachable self'
| reach_apply target self v self' :
    reachable self ->
    _apply_transition target self = Ok (v, self') ->
    reachable self'
| reach_graph self g self' :
    reachable self ->
    get_graphviz_source self = Ok (g, self') ->
    reachable self'.

(** ** Notions the properties are stated with *)

(** [w] is the greatest weight of [d]: no item of [d] weighs more. *)
Definition greatest (d : Py.dict float) (w : float) : Prop :=
  forall x, In x d -> PrimFloat.leb (snd x) w = true.

(** The item at position [i] of [d] is [(l, w)] and no item before it has
    the weight [w]: [l] is the first label met with that weight. *)
Definition first_with (d : Py.dict float) (i : nat) (l : string) (w : float)
  : Prop :=
  nth_error d i = Some (l, w)
  /\ forall j x, j < i -> nth_error d j = Some x ->
                 PrimFloat.eqb (snd x) w = false.

(** The items of [d] with every label rewritten by [f]. *)
Definition relabel (f : string -> string) (d : Py.dict float) : Py.dict float :=
  map (fun x => (f (fst x), snd x)) d.

(** The node identifiers of a graph, in the order they were added. *)
Definition node_names (g : Digraph) : list string :=
  flat_map (fun st => match st with Node n _ => [n] | _ => [] end) (body g).

(** The directed edges of a graph as (tail, head) pairs. *)
Definition edge_pairs (g : Digraph) : list (string * string) :=
  flat_map (fun st => match st with Edge s t _ => [(s, t)] | _ => [] end)
           (body g).

(** The nodes drawn filled, which is how the active state is marked. *)
Definition active_nodes (g : Digraph) : list string :=
  flat_map (fun st =>
    match st with
    | Node n attrs =>
        if existsb (fun kv => String.eqb (fst kv) "style"
                              && String.eqb (snd kv) "filled") attrs
        then [n] else []
    | _ => []
    end) (body g).

(** The sentiment branch of the selection, on the top sentiment label. *)
Definition sentiment_target (top_sent : option string) : string :=
  match top_sent with
  | Some l =>
      if Py.truthy l
      then if String.eqb (Py.upper l) "POSITIVE" then "Happy"
           else if String.eqb (Py.upper l) "NEGATIVE" then "Sad"
           else "Neutral"
      else "Neutral"
  | None => "Neutral"
  end.

(** Every ordered pair of different states. *)
Definition complete_edges : list (string * string) :=
  flat_map (fun s =>
    flat_map (fun t => if negb (String.eqb s t) then [(s, t)] else []) states)
    states.

Definition edge_dec (x y : string * string) : {x = y} + {x <> y}.
Proof. decide equality; apply string_dec. Defined.

(** [str.lower] and [str.upper] as they act on ASCII text: byte by byte. *)
Fixpoint ascii_lower (s : string) : string :=
  match s with
  | EmptyString => EmptyString
  | String c r => String (Py.lower_char c) (ascii_lower r)
  end.

Fixpoint ascii_upper (s : string) : string :=
  match s with
  | EmptyString => EmptyString
  | String c r => String (Py.upper_char c) (ascii_upper r)
  end.

(** Some byte of [s] satisfies [p]. *)
Fixpoint has_byte (p : N -> bool) (s : string) : bool :=
  match s with
  | EmptyString => false
  | String b r => p (N_of_ascii b) || has_byte p r
  end.

(** [s] is ASCII text: every byte is below [0x80]. *)
Definition is_ascii (s : string) : bool :=
  negb (has_byte (fun n => 0x80 <=? n)%N s).

(** A code point no key of the label table contains: one of [0x80] or
    more, or the letter k. *)
Definition off_key (n : N) : bool := ((0x80 <=? n) || (n =? 0x6B))%N.

(** An ASCII capital letter. *)
Definition ascii_capital (n : N) : bool := ((0x41 <=? n) && (n <=? 0x5A))%N.

(** What one code point gives in lower case, at any place of a string. *)
Definition lower_head (before : list N) (c : N) (after : list N) : list N :=
  if (c =? 0x3A3)%N then [Unicode.lower_sigma before after]
  else Unicode.to_lower_full c.

(** No weight of [d] is a NaN. *)
Definition nan_free (d : Py.dict float) : Prop :=
  forall x, In x d -> PrimFloat.is_nan (snd x) = false.

(** ** The page script of [app.py] *)

(** The picture shown for each mood. *)
Definition IMAGE_MAP : Py.dict string :=
  [ ("Happy", "happy.jpeg");
    ("Sad", "sad.jpeg");
    ("Angry", "angry.jpeg");
    ("Fearful", "fearfull.jpeg");
    ("Surprised", "surprised.jpeg");
    ("Curious", "curious.jpeg");
    ("Neutral", "neutral.jpeg") ].

(** What the script works on: the machine [load_pipeline] caches, and the
    entry ["prev_mood"] of [st.session_state], [None] while the key is
    absent. *)
Record Page : Type := mkPage {
  fsm : EmotionFSM;
  prev_mood : option string
}.

(** What the four mood placeholders and the graph placeholder show. An
    image is the file name [IMAGE_MAP.get] returned, or [None]. *)
Record Shown : Type := mkShown {
  prev_mood_text : string;
  prev_img : option string;
  current_mood_text : string;
  current_img : option string;
  graph : Digraph
}.

(** The block that tracks the previous mood: the key is created with
    ["Neutral"] when the session does not have it yet. *)
Definition track_previous_mood (p : Page) : Page :=
  match prev_mood p with
  | None => {| fsm := fsm p; prev_mood := Some "Neutral" |}
  | Some _ => p
  end.

(** The first rendering of the two moods and of the graph. *)
Definition display_moods (p : Page) : result (Shown * Page) :=
  let p := track_previous_mood p in
  let prev := match prev_mood p with Some m => m | None => "Neutral" end in
  let current_mood := state (fsm p) in
  match get_graphviz_source (fsm p) with
  | Raise e => Raise e
  | Ok (g, f) =>
      Ok ({| prev_mood_text := "**Previous Mood:** " ++ prev;
             prev_img := Py.get IMAGE_MAP prev;
             current_mood_text := "**Current Mood:** " ++ current_mood;
             current_img := Py.get IMAGE_MAP current_mood;
             graph := g |},
          {| fsm := f; prev_mood := prev_mood p |})
  end.

(** The statements of [handle_audio_cycle] that save the previous mood and
    update the machine (lines 144 to 148), on the two predictions
    [pipe.predict] returned: the state before the update is stored in the
    session as the previous mood, then [fsm.update_from_nlp] runs and its
    value is [new_state]. *)
Definition save_previous_and_update (emo_pred sent_pred : Py.dict float)
  (p : Page) : result (value * Page) :=
  let previous := state (fsm p) in
  let p := {| fsm := fsm p; prev_mood := Some previous |} in
  match update_from_nlp emo_pred sent_pred (fsm p) with
  | Raise e => Raise e
  | Ok (new_state, f) => Ok (new_state, {| fsm := f; prev_mood := prev_mood p |})
  end.

(** * Properties *)

(** ** Strings *)

(** *** UTF-8 and the case mappings *)

Lemma N_of_ascii_high_byte x : (0x80 <= N_of_ascii (Unicode.high_byte x))%N.
Proof.
  unfold Unicode.high_byte. rewrite N_ascii_embedding.
  - apply N.le_add_r.
  - pose proof (N.mod_lt x 0x80). lia.
Qed.

Lemma decode_ascii_byte b r :
  (N_of_ascii b <? 0x80)%N = true ->
  Unicode.decode (String b r) = N_of_ascii b :: Unicode.decode r.
Proof. intros H. cbn [Unicode.decode]. cbv zeta. now rewrite H. Qed.

(** The first code point of a string that starts with a byte of [0x80] or
    more is itself [0x80] or more. *)
Lemma decode_high_byte b r :
  (N_of_ascii b <? 0x80)%N = false ->
  exists c rest, Unicode.decode (String b r) = c :: rest /\ (0x80 <= c)%N.
Proof.
  intros H. cbn [Unicode.decode]. cbv zeta. rewrite H.
  assert (Hraw : (0x80 <= Unicode.raw_base + N_of_ascii b)%N)
    by (unfold Unicode.raw_base; lia).
  destruct r as [|b1 r1]; [eauto|].
  match goal with |- context [if ?c then _ else _] => destruct c eqn:H2 end.
  { rewrite !andb_true_iff in H2. destruct H2 as [_ H2].
    apply N.leb_le in H2. eauto. }
  destruct r1 as [|b2 r2]; [eauto|].
  match goal with |- context [if ?c then _ else _] => destruct c eqn:H3 end.
  { rewrite !andb_true_iff in H3. destruct H3 as [_ H3].
    apply N.leb_le in H3. eexists. eexists. split; [reflexivity|]. lia. }
  destruct r2 as [|b3 r3]; [eauto|].
  match goal with |- context [if ?c then _ else _] => destruct c eqn:H4 end.
  { rewrite !andb_true_iff in H4. destruct H4 as [[_ H4] _].
    apply N.leb_le in H4. eexists. eexists. split; [reflexivity|]. lia. }
  eauto.
Qed.

Lemma decode_nonempty b r : Unicode.decode (String b r) <> [].
Proof.
  destruct (N_of_ascii b <? 0x80)%N eqn:H.
  - rewrite (decode_ascii_byte b r H). discriminate.
  - destruct (decode_high_byte b r H) as (c & rest & -> & _). discriminate.
Qed.

Lemma truthy_encode_one c rest : Py.truthy (Unicode.encode_one c rest) = true.
Proof.
  unfold Unicode.encode_one.
  repeat match goal with |- context [if ?b then _ else _] => destruct b end;
    reflexivity.
Qed.

Lemma special_map_In table c l :
  Unicode.special_map table c = Some l -> In (c, l) table.
Proof.
  induction table as [|[k v] t IH]; simpl; [discriminate|].
  destruct (N.eqb_spec k c) as [-> | _].
  - intros H. injection H as ->. now left.
  - intros H. right. now apply IH.
Qed.

(** A property every entry of a special table has is one the looked-up
    entry has. *)
Lemma special_map_forall (P : list N -> bool) table c l :
  forallb (fun e => P (snd e)) table = true ->
  Unicode.special_map table c = Some l -> P l = true.
Proof.
  intros Hall Hl. apply special_map_In in Hl.
  rewrite forallb_forall in Hall. exact (Hall _ Hl).
Qed.

Lemma find_run runs c first last step target :
  find (Unicode.in_run c) runs = Some (first, last, step, target) ->
  In (first, last, step, target) runs /\ (first <= c)%N /\ (c <= last)%N.
Proof.
  intros H. apply find_some in H. destruct H as [Hin Hrun].
  split; [assumption|]. unfold Unicode.in_run in Hrun.
  rewrite !andb_true_iff in Hrun. destruct Hrun as [[H1 H2] _].
  apply N.leb_le in H1, H2. now split.
Qed.

Lemma to_lower_full_nonempty c : Unicode.to_lower_full c <> [].
Proof.
  unfold Unicode.to_lower_full.
  destruct (c <? 0x80)%N; [discriminate|].
  destruct (Unicode.special_map Unicode.lower_special c) as [l|] eqn:Hl;
    [|discriminate].
  assert (H : negb (Nat.eqb (List.length l) 0) = true).
  { apply (special_map_forall (fun l => negb (Nat.eqb (List.length l) 0))
             Unicode.lower_special c l); [|assumption].
    vm_compute. reflexivity. }
  destruct l; [discriminate H | discriminate].
Qed.

Lemma to_upper_full_nonempty c : Unicode.to_upper_full c <> [].
Proof.
  unfold Unicode.to_upper_full.
  destruct (c <? 0x80)%N; [discriminate|].
  destruct (Unicode.special_map Unicode.upper_special c) as [l|] eqn:Hl;
    [|discriminate].
  assert (H : negb (Nat.eqb (List.length l) 0) = true).
  { apply (special_map_forall (fun l => negb (Nat.eqb (List.length l) 0))
             Unicode.upper_special c l); [|assumption].
    vm_compute. reflexivity. }
  destruct l; [discriminate H | discriminate].
Qed.

Lemma truthy_encode_app l l' :
  l <> [] -> Py.truthy (Unicode.encode (l ++ l')) = true.
Proof.
  destruct l as [|o os]; [congruence|]. intros _.
  change (Unicode.encode ((o :: os) ++ l'))
    with (Unicode.encode_one o (Unicode.encode (os ++ l'))).
  apply truthy_encode_one.
Qed.

Lemma lower_from_cons before c r :
  Unicode.lower_from before (c :: r)
  = ((if (c =? 0x3A3)%N then [Unicode.lower_sigma before r]
      else Unicode.to_lower_full c)
     ++ Unicode.lower_from (c :: before) r)%list.
Proof. reflexivity. Qed.

Lemma truthy_lower s : Py.truthy (Py.lower s) = Py.truthy s.
Proof.
  destruct s as [|b r]; [reflexivity|]. unfold Py.lower.
  change (Py.truthy (String b r)) with true.
  pose proof (decode_nonempty b r) as Hd.
  destruct (Unicode.decode (String b r)) as [|c rest]; [congruence|].
  unfold Unicode.lower. rewrite lower_from_cons.
  apply truthy_encode_app.
  destruct (c =? 0x3A3)%N; [discriminate | apply to_lower_full_nonempty].
Qed.

Lemma truthy_upper s : Py.truthy (Py.upper s) = Py.truthy s.
Proof.
  destruct s as [|b r]; [reflexivity|]. unfold Py.upper.
  change (Py.truthy (String b r)) with true.
  pose proof (decode_nonempty b r) as Hd.
  destruct (Unicode.decode (String b r)) as [|c rest]; [congruence|].
  unfold Unicode.upper.
  change (flat_map Unicode.to_upper_full (c :: rest))
    with (Unicode.to_upper_full c ++ flat_map Unicode.to_upper_full rest)%list.
  apply truthy_encode_app, to_upper_full_nonempty.
Qed.

(** *** ASCII text *)

Lemma is_ascii_String b r :
  is_ascii (String b r) = true ->
  (N_of_ascii b <? 0x80)%N = true /\ is_ascii r = true.
Proof.
  unfold is_ascii. cbn [has_byte]. rewrite negb_orb, andb_true_iff.
  intros [H1 H2]. split; [|assumption].
  apply negb_true_iff in H1. apply N.leb_gt in H1. now apply N.ltb_lt.
Qed.

Lemma lower_char_N b :
  ascii_of_N (if ((0x41 <=? N_of_ascii b) && (N_of_ascii b <=? 0x5A))%N
              then N_of_ascii b + 0x20 else N_of_ascii b)%N
  = Py.lower_char b.
Proof. destruct b as [[] [] [] [] [] [] [] []]; reflexivity. Qed.

Lemma upper_char_N b :
  ascii_of_N (if ((0x61 <=? N_of_ascii b) && (N_of_ascii b <=? 0x7A))%N
              then N_of_ascii b - 0x20 else N_of_ascii b)%N
  = Py.upper_char b.
Proof. destruct b as [[] [] [] [] [] [] [] []]; reflexivity. Qed.

Lemma encode_cons c l :
  Unicode.encode (c :: l) = Unicode.encode_one c (Unicode.encode l).
Proof. reflexivity. Qed.

Lemma encode_one_ascii c rest :
  (c < 0x80)%N -> Unicode.encode_one c rest = String (ascii_of_N c) rest.
Proof.
  intros H. unfold Unicode.encode_one.
  apply N.ltb_lt in H. now rewrite H.
Qed.

Lemma to_lower_full_ascii c :
  (c < 0x80)%N ->
  Unicode.to_lower_full c
  = [if ((0x41 <=? c) && (c <=? 0x5A))%N then (c + 0x20)%N else c].
Proof.
  intros H. unfold Unicode.to_lower_full. apply N.ltb_lt in H. now rewrite H.
Qed.

Lemma to_upper_full_ascii c :
  (c < 0x80)%N ->
  Unicode.to_upper_full c
  = [if ((0x61 <=? c) && (c <=? 0x7A))%N then (c - 0x20)%N else c].
Proof.
  intros H. unfold Unicode.to_upper_full. apply N.ltb_lt in H. now rewrite H.
Qed.

Lemma lower_from_ascii s :
  is_ascii s = true ->
  forall before,
    Unicode.encode (Unicode.lower_from before (Unicode.decode s))
    = ascii_lower s.
Proof.
  induction s as [|b r IH]; intros Hs before; [reflexivity|].
  apply is_ascii_String in Hs. destruct Hs as [Hb Hr].
  rewrite (decode_ascii_byte b r Hb), lower_from_cons.
  apply N.ltb_lt in Hb.
  destruct (N.eqb_spec (N_of_ascii b) 0x3A3) as [Heq | _]; [lia|].
  rewrite (to_lower_full_ascii _ Hb).
  change ([?x] ++ ?l)%list with (x :: l). rewrite encode_cons.
  rewrite encode_one_ascii.
  - rewrite (IH Hr). cbn [ascii_lower]. now rewrite lower_char_N.
  - destruct ((0x41 <=? N_of_ascii b) && (N_of_ascii b <=? 0x5A))%N eqn:H;
      [|assumption].
    apply andb_true_iff in H. destruct H as [_ H]. apply N.leb_le in H. lia.
Qed.

(** On ASCII text [str.lower] works byte by byte. *)
Lemma lower_ascii s : is_ascii s = true -> Py.lower s = ascii_lower s.
Proof. intros H. unfold Py.lower, Unicode.lower. now apply lower_from_ascii. Qed.

Lemma upper_ascii s : is_ascii s = true -> Py.upper s = ascii_upper s.
Proof.
  unfold Py.upper, Unicode.upper.
  induction s as [|b r IH]; intros Hs; [reflexivity|].
  apply is_ascii_String in Hs. destruct Hs as [Hb Hr].
  rewrite (decode_ascii_byte b r Hb).
  apply N.ltb_lt in Hb.
  change (flat_map Unicode.to_upper_full (?c :: ?l))
    with (Unicode.to_upper_full c ++ flat_map Unicode.to_upper_full l)%list.
  rewrite (to_upper_full_ascii _ Hb).
  change ([?x] ++ ?l)%list with (x :: l). rewrite encode_cons.
  rewrite encode_one_ascii.
  - rewrite (IH Hr). cbn [ascii_upper]. now rewrite upper_char_N.
  - destruct ((0x61 <=? N_of_ascii b) && (N_of_ascii b <=? 0x7A))%N; lia.
Qed.

Lemma is_ascii_ascii_lower s : is_ascii (ascii_lower s) = is_ascii s.
Proof.
  unfold is_ascii. f_equal.
  induction s as [|b r IH]; [reflexivity|]. cbn [ascii_lower has_byte].
  rewrite IH. f_equal.
  destruct b as [[] [] [] [] [] [] [] []]; reflexivity.
Qed.

Lemma is_ascii_ascii_upper s : is_ascii (ascii_upper s) = is_ascii s.
Proof.
  unfold is_ascii. f_equal.
  induction s as [|b r IH]; [reflexivity|]. cbn [ascii_upper has_byte].
  rewrite IH. f_equal.
  destruct b as [[] [] [] [] [] [] [] []]; reflexivity.
Qed.

Lemma lower_upper_char c : Py.lower_char (Py.upper_char c) = Py.lower_char c.
Proof. destruct c as [[] [] [] [] [] [] [] []]; reflexivity. Qed.

Lemma upper_lower_char c : Py.upper_char (Py.lower_char c) = Py.upper_char c.
Proof. destruct c as [[] [] [] [] [] [] [] []]; reflexivity. Qed.

Lemma lower_lower_char c : Py.lower_char (Py.lower_char c) = Py.lower_char c.
Proof. destruct c as [[] [] [] [] [] [] [] []]; reflexivity. Qed.

Lemma upper_upper_char c : Py.upper_char (Py.upper_char c) = Py.upper_char c.
Proof. destruct c as [[] [] [] [] [] [] [] []]; reflexivity. Qed.

Lemma ascii_lower_upper s : ascii_lower (ascii_upper s) = ascii_lower s.
Proof.
  induction s as [|c s IH]; simpl; [reflexivity|].
  now rewrite lower_upper_char, IH.
Qed.

Lemma ascii_upper_lower s : ascii_upper (ascii_lower s) = ascii_upper s.
Proof.
  induction s as [|c s IH]; simpl; [reflexivity|].
  now rewrite upper_lower_char, IH.
Qed.

Lemma ascii_upper_upper s : ascii_upper (ascii_upper s) = ascii_upper s.
Proof.
  induction s as [|c s IH]; simpl; [reflexivity|].
  now rewrite upper_upper_char, IH.
Qed.

(** On ASCII text the two mappings undo nothing of each other. *)
Lemma lower_upper_ascii s :
  is_ascii s = true -> Py.lower (Py.upper s) = Py.lower s.
Proof.
  intros H. rewrite (upper_ascii s H), !lower_ascii;
    [apply ascii_lower_upper | assumption |].
  now rewrite is_ascii_ascii_upper.
Qed.

Lemma upper_upper_ascii s :
  is_ascii s = true -> Py.upper (Py.upper s) = Py.upper s.
Proof.
  intros H. rewrite (upper_ascii s H), upper_ascii;
    [apply ascii_upper_upper|].
  now rewrite is_ascii_ascii_upper.
Qed.

Lemma upper_lower_ascii s :
  is_ascii s = true -> Py.upper (Py.lower s) = Py.upper s.
Proof.
  intros H. rewrite (lower_ascii s H), !upper_ascii;
    [apply ascii_upper_lower | assumption |].
  now rewrite is_ascii_ascii_lower.
Qed.

(** *** What [str.lower] can and cannot produce *)

Lemma lower_run_bounds c :
  (0x80 <= c)%N ->
  let o := Unicode.simple_map Unicode.lower_runs c in
  off_key o = true /\ ascii_capital o = false.
Proof.
  intros Hc o. subst o. unfold Unicode.simple_map.
  destruct (find (Unicode.in_run c) Unicode.lower_runs)
    as [[[[first last] step] target]|] eqn:Hf.
  - apply find_run in Hf. destruct Hf as (Hin & H1 & H2).
    assert (Hall : forallb (fun r : N * N * N * N =>
                     let '(f, l, _, t) := r in
                     ((0x80 <=? t) || ((t =? 0x6B) && (f =? l)))
                     && (0x5A <? t))%N Unicode.lower_runs = true)
      by (vm_compute; reflexivity).
    rewrite forallb_forall in Hall. specialize (Hall _ Hin). cbv beta iota in Hall.
    apply andb_true_iff in Hall. destruct Hall as [Ha Hb].
    apply N.ltb_lt in Hb. unfold off_key, ascii_capital. split.
    + apply orb_true_iff in Ha. destruct Ha as [Ha | Ha].
      * apply N.leb_le in Ha. apply orb_true_iff. left. apply N.leb_le. lia.
      * apply andb_true_iff in Ha. destruct Ha as [Ht Hfl].
        apply N.eqb_eq in Ht, Hfl. apply orb_true_iff. right.
        apply N.eqb_eq. lia.
    + apply andb_false_iff. right. apply N.leb_gt. lia.
  - unfold off_key, ascii_capital. split.
    + apply orb_true_iff. left. now apply N.leb_le.
    + apply andb_false_iff. right. apply N.leb_gt. lia.
Qed.

Lemma lower_head_no_capital before c after :
  existsb ascii_capital (lower_head before c after) = false.
Proof.
  unfold lower_head. destruct (c =? 0x3A3)%N.
  - unfold Unicode.lower_sigma.
    match goal with |- context [if ?b then _ else _] => destruct b end;
      reflexivity.
  - unfold Unicode.to_lower_full. destruct (c <? 0x80)%N eqn:Hc.
    + cbn [existsb]. rewrite orb_false_r. unfold ascii_capital.
      destruct ((0x41 <=? c) && (c <=? 0x5A))%N eqn:H.
      * apply andb_true_iff in H. destruct H as [H _]. apply N.leb_le in H.
        apply andb_false_iff. right. apply N.leb_gt. lia.
      * assumption.
    + destruct (Unicode.special_map Unicode.lower_special c) as [l|] eqn:Hl.
      * apply negb_true_iff.
        apply (special_map_forall (fun l => negb (existsb ascii_capital l))
                 Unicode.lower_special c l); [|assumption].
        vm_compute. reflexivity.
      * cbn [existsb]. rewrite orb_false_r.
        apply lower_run_bounds. now apply N.ltb_ge.
Qed.

Lemma lower_head_off_key before c after :
  (0x80 <= c)%N -> existsb off_key (lower_head before c after) = true.
Proof.
  intros Hc. unfold lower_head. destruct (c =? 0x3A3)%N.
  - unfold Unicode.lower_sigma.
    match goal with |- context [if ?b then _ else _] => destruct b end;
      reflexivity.
  - unfold Unicode.to_lower_full.
    assert (H : (c <? 0x80)%N = false) by now apply N.ltb_ge.
    rewrite H.
    destruct (Unicode.special_map Unicode.lower_special c) as [l|] eqn:Hl.
    + apply (special_map_forall (existsb off_key)
               Unicode.lower_special c l); [|assumption].
      vm_compute. reflexivity.
    + cbn [existsb]. rewrite orb_false_r. now apply lower_run_bounds.
Qed.

Lemma lower_from_no_capital cps :
  forall before,
    existsb ascii_capital (Unicode.lower_from before cps) = false.
Proof.
  induction cps as [|c r IH]; intros before; [reflexivity|].
  rewrite lower_from_cons, existsb_app, IH, orb_false_r.
  apply (lower_head_no_capital before c r).
Qed.

Lemma lower_from_off_key cps :
  existsb (fun c => 0x80 <=? c)%N cps = true ->
  forall before, existsb off_key (Unicode.lower_from before cps) = true.
Proof.
  induction cps as [|c r IH]; intros H before; [discriminate|].
  rewrite lower_from_cons, existsb_app. cbn [existsb] in H.
  apply orb_true_iff in H. apply orb_true_iff. destruct H as [H | H].
  - left. apply N.leb_le in H. now apply (lower_head_off_key before c r).
  - right. now apply IH.
Qed.

Lemma has_byte_encode_one p c rest :
  has_byte p rest = true -> has_byte p (Unicode.encode_one c rest) = true.
Proof.
  intros H. unfold Unicode.encode_one.
  repeat match goal with |- context [if ?b then _ else _] => destruct b end;
    cbn [has_byte]; rewrite H; now rewrite ?orb_true_r.
Qed.

Lemma off_key_high_byte x : off_key (N_of_ascii (Unicode.high_byte x)) = true.
Proof.
  unfold off_key. apply orb_true_iff. left. apply N.leb_le.
  apply N_of_ascii_high_byte.
Qed.

Lemma capital_high_byte x :
  ascii_capital (N_of_ascii (Unicode.high_byte x)) = false.
Proof.
  unfold ascii_capital. apply andb_false_iff. right. apply N.leb_gt.
  pose proof (N_of_ascii_high_byte x). lia.
Qed.

Lemma encode_off_key cps :
  existsb off_key cps = true -> has_byte off_key (Unicode.encode cps) = true.
Proof.
  induction cps as [|c r IH]; [discriminate|]. cbn [existsb].
  rewrite encode_cons. intros H. apply orb_true_iff in H.
  destruct H as [H | H]; [|now apply has_byte_encode_one, IH].
  unfold Unicode.encode_one.
  destruct (c <? 0x80)%N eqn:Hc.
  - cbn [has_byte]. apply N.ltb_lt in Hc.
    rewrite N_ascii_embedding by lia. now rewrite H.
  - repeat match goal with |- context [if ?b then _ else _] => destruct b end;
      cbn [has_byte]; now rewrite off_key_high_byte.
Qed.

Lemma encode_no_capital cps :
  existsb ascii_capital cps = false ->
  has_byte ascii_capital (Unicode.encode cps) = false.
Proof.
  induction cps as [|c r IH]; [reflexivity|]. cbn [existsb].
  rewrite encode_cons. intros H. apply orb_false_iff in H.
  destruct H as [Hc Hr]. specialize (IH Hr).
  unfold Unicode.encode_one.
  destruct (c <? 0x80)%N eqn:Hlt.
  - cbn [has_byte]. apply N.ltb_lt in Hlt.
    rewrite N_ascii_embedding by lia. now rewrite Hc, IH.
  - repeat match goal with |- context [if ?b then _ else _] => destruct b end;
      cbn [has_byte]; now rewrite ?capital_high_byte, IH.
Qed.

Lemma decode_not_ascii s :
  is_ascii s = false ->
  existsb (fun c => 0x80 <=? c)%N (Unicode.decode s) = true.
Proof.
  unfold is_ascii. rewrite negb_false_iff.
  induction s as [|b r IH]; [discriminate|]. cbn [has_byte]. intros H.
  destruct (N_of_ascii b <? 0x80)%N eqn:Hb.
  - rewrite (decode_ascii_byte b r Hb). cbn [existsb].
    apply N.ltb_lt in Hb. apply orb_true_iff in H.
    destruct H as [H | H]; [apply N.leb_le in H; lia|].
    rewrite (IH H). apply orb_true_r.
  - destruct (decode_high_byte b r Hb) as (c & rest & -> & Hc).
    cbn [existsb]. apply N.leb_le in Hc. now rewrite Hc.
Qed.

(** [str.lower] never yields an ASCII capital letter. *)
Lemma lower_no_capital s : has_byte ascii_capital (Py.lower s) = false.
Proof.
  unfold Py.lower, Unicode.lower. apply encode_no_capital, lower_from_no_capital.
Qed.

(** The lower case of text that is not ASCII holds a byte no key has. *)
Lemma lower_not_ascii s :
  is_ascii s = false -> has_byte off_key (Py.lower s) = true.
Proof.
  intros H. unfold Py.lower, Unicode.lower.
  apply encode_off_key, lower_from_off_key, decode_not_ascii, H.
Qed.

Lemma ascii_lower_fixed s :
  has_byte ascii_capital s = false -> ascii_lower s = s.
Proof.
  induction s as [|b r IH]; [reflexivity|]. cbn [has_byte ascii_lower].
  intros H. apply orb_false_iff in H. destruct H as [Hb Hr].
  rewrite (IH Hr). f_equal. rewrite <- lower_char_N.
  unfold ascii_capital in Hb. rewrite Hb. apply ascii_N_embedding.
Qed.

Lemma get_In {V : Type} (d : Py.dict V) k v :
  Py.get d k = Some v -> In (k, v) d.
Proof.
  induction d as [|[k' v'] r IH]; simpl; [discriminate|].
  destruct (String.eqb_spec k' k) as [-> | _].
  - intros H. injection H as ->. now left.
  - intros H. right. now apply IH.
Qed.

(** The keys of the label table are ASCII and hold no byte [off_key]. *)
Lemma mapping_keys k v :
  Py.get mapping k = Some v -> has_byte off_key k = false.
Proof.
  intros H. apply get_In in H. unfold mapping in H. simpl in H.
  repeat (destruct H as [H | H]; [injection H as <- _; reflexivity|]).
  contradiction.
Qed.

Lemma off_key_not_ascii s : is_ascii s = false -> has_byte off_key s = true.
Proof.
  unfold is_ascii. rewrite negb_false_iff.
  induction s as [|b r IH]; [discriminate|]. cbn [has_byte]. intros H.
  apply orb_true_iff in H. apply orb_true_iff. destruct H as [H | H].
  - left. unfold off_key. now rewrite H.
  - right. now apply IH.
Qed.

Lemma get_mapping_off_key s :
  has_byte off_key s = true -> Py.get mapping s = None.
Proof.
  intros H. destruct (Py.get mapping s) as [v|] eqn:Hg; [|reflexivity].
  apply mapping_keys in Hg. congruence.
Qed.

(** Lower-casing twice finds in the label table what lower-casing once
    finds. *)
Lemma get_mapping_lower_lower l :
  Py.get mapping (Py.lower (Py.lower l)) = Py.get mapping (Py.lower l).
Proof.
  destruct (is_ascii (Py.lower l)) eqn:Ha.
  - rewrite (lower_ascii _ Ha), ascii_lower_fixed; [reflexivity|].
    apply lower_no_capital.
  - rewrite (get_mapping_off_key (Py.lower l)) by now apply off_key_not_ascii.
    apply get_mapping_off_key. now apply lower_not_ascii.
Qed.

(** ** The machine *)

Lemma registered_In s : registered s = true <-> In s states.
Proof.
  unfold registered. rewrite existsb_exists. split.
  - intros (x & Hx & Heq). apply String.eqb_eq in Heq. now subst.
  - intros H. exists s. split; [assumption | apply String.eqb_refl].
Qed.

Lemma fire_wildcard self :
  registered (state self) = true ->
  to_happy self = Ok (PyBool true, set_state "Happy" self)
  /\ to_sad self = Ok (PyBool true, set_state "Sad" self)
  /\ to_angry self = Ok (PyBool true, set_state "Angry" self)
  /\ to_neutral self = Ok (PyBool true, set_state "Neutral" self)
  /\ to_surprised self = Ok (PyBool true, set_state "Surprised" self)
  /\ to_fearful self = Ok (PyBool true, set_state "Fearful" self)
  /\ to_curious self = Ok (PyBool true, set_state "Curious" self).
Proof.
  intros Hreg.
  unfold to_happy, to_sad, to_angry, to_neutral, to_surprised, to_fearful,
    to_curious, fire.
  rewrite Hreg. cbn. repeat split; reflexivity.
Qed.

(** What [_apply_transition] does on a machine whose state is registered:
    a registered target becomes the state, any other name gives ["Neutral"]. *)
Lemma apply_transition_registered target self :
  registered (state self) = true ->
  _apply_transition target self
  = Ok (PyNone, set_state (if registered target then target else "Neutral") self).
Proof.
  intros Hreg.
  destruct (fire_wildcard self Hreg) as (Hh & Hs & Ha & Hn & Hsu & Hf & Hc).
  unfold _apply_transition, Py.get_default, trigger_mapping, bind, ret.
  cbn [Py.get].
  repeat match goal with
         | |- context [String.eqb ?k target] =>
             destruct (String.eqb_spec k target) as [<- | ?]
         end;
    try (rewrite ?Hh, ?Hs, ?Ha, ?Hn, ?Hsu, ?Hf, ?Hc; reflexivity).
  rewrite Hn.
  replace (registered target) with false; [reflexivity|].
  symmetry. apply not_true_is_false. rewrite registered_In.
  unfold states. simpl. intuition congruence.
Qed.

(** ** Float comparisons *)

Lemma SFcompare_antisym x y :
  SpecFloat.SFcompare y x = option_map CompOpp (SpecFloat.SFcompare x y).
Proof.
  destruct x as [sx | sx | | sx mx ex], y as [sy | sy | | sy my ey];
    simpl; try reflexivity;
    try (destruct sx; reflexivity); try (destruct sy; reflexivity);
    try (destruct sx, sy; reflexivity).
  destruct sx, sy; try reflexivity; f_equal;
    rewrite (Z.compare_antisym ey ex);
    destruct (Z.compare ey ex) eqn:He; simpl; try reflexivity;
    change (Pos.compare_cont Eq my mx) with (Pos.compare my mx);
    change (Pos.compare_cont Eq mx my) with (Pos.compare mx my);
    rewrite (Pos.compare_antisym my mx);
    destruct (Pos.compare my mx); reflexivity.
Qed.

(** A weight that is at most [w] and not equal to it is strictly below. *)
Lemma leb_neq_ltb x w :
  PrimFloat.leb x w = true -> PrimFloat.eqb x w = false ->
  PrimFloat.ltb x w = true.
Proof.
  rewrite leb_spec, FloatAxioms.eqb_spec, ltb_spec.
  unfold SpecFloat.SFleb, SpecFloat.SFeqb, SpecFloat.SFltb.
  destruct (SpecFloat.SFcompare (Prim2SF x) (Prim2SF w)) as [[]|];
    congruence.
Qed.

(** A weight that is at most [w] is not strictly above it. *)
Lemma leb_not_gt x w :
  PrimFloat.leb x w = true -> Py.gt x w = false.
Proof.
  unfold Py.gt. rewrite leb_spec, ltb_spec.
  unfold SpecFloat.SFleb, SpecFloat.SFltb.
  rewrite (SFcompare_antisym (Prim2SF x) (Prim2SF w)).
  destruct (SpecFloat.SFcompare (Prim2SF x) (Prim2SF w)) as [[]|];
    simpl; congruence.
Qed.

(** ** The maximum loop *)

Lemma max_loop_app best r s :
  Py.max_loop best (r ++ s) = Py.max_loop (Py.max_loop best r) s.
Proof.
  revert best. induction r as [|x r IH]; intros best; simpl; [reflexivity|].
  apply IH.
Qed.

Lemma max_loop_In best r : In (Py.max_loop best r) (best :: r).
Proof.
  revert best. induction r as [|x r IH]; intros best; simpl.
  - now left.
  - destruct (IH (if Py.gt (snd x) (snd best) then x else best)) as [H | H].
    + destruct (Py.gt (snd x) (snd best)); rewrite <- H; auto.
    + auto.
Qed.

Lemma max_loop_keeps best r :
  (forall x, In x r -> Py.gt (snd x) (snd best) = false) ->
  Py.max_loop best r = best.
Proof.
  induction r as [|x r IH]; intros H; simpl; [reflexivity|].
  rewrite (H x (or_introl eq_refl)).
  apply IH. intros y Hy. apply H. now right.
Qed.

(** With a greatest weight [w] first met at position [i], the loop ends on
    the item at [i]. *)
Lemma top_label_first_greatest d i l w :
  greatest d w -> first_with d i l w -> Py.top_label d = Some l.
Proof.
  intros Hg [Hi Hfirst].
  destruct (nth_error_split d i Hi) as (pre & post & -> & Hlen).
  assert (Hpre : forall x, In x pre -> Py.gt w (snd x) = true).
  { intros x Hx. unfold Py.gt.
    destruct (In_nth_error pre x Hx) as [j Hj].
    assert (Hlt : j < i).
    { rewrite <- Hlen. apply nth_error_Some. congruence. }
    apply leb_neq_ltb.
    - apply Hg. apply in_or_app. now left.
    - apply (Hfirst j x Hlt). rewrite nth_error_app1; [assumption|].
      now rewrite Hlen. }
  assert (Hpost : Py.max_loop (l, w) post = (l, w)).
  { apply max_loop_keeps. intros x Hx. simpl. apply leb_not_gt.
    apply Hg. apply in_or_app. right. now right. }
  destruct pre as [|p r]; simpl.
  - now rewrite Hpost.
  - rewrite max_loop_app. simpl.
    rewrite (Hpre _ (max_loop_In p r)). now rewrite Hpost.
Qed.

Lemma max_loop_relabel f best r :
  Py.max_loop (f (fst best), snd best) (relabel f r)
  = (f (fst (Py.max_loop best r)), snd (Py.max_loop best r)).
Proof.
  revert best. induction r as [|x r IH]; intros best; simpl; [reflexivity|].
  destruct (Py.gt (snd x) (snd best)); apply IH.
Qed.

Lemma top_label_relabel f d :
  Py.top_label (relabel f d) = option_map f (Py.top_label d).
Proof.
  destruct d as [|x r]; simpl; [reflexivity|].
  now rewrite max_loop_relabel.
Qed.

(** ** The selection *)

Lemma mapping_values k s :
  Py.get mapping k = Some s -> registered s = true /\ Py.truthy s = true.
Proof.
  unfold mapping. cbn [Py.get].
  repeat match goal with
         | |- context [String.eqb ?a k] => destruct (String.eqb a k)
         end;
    intros H; inversion H; subst; split; reflexivity.
Qed.

Lemma mapping_truthy_key k s : Py.get mapping k = Some s -> Py.truthy k = true.
Proof. destruct k; [discriminate | reflexivity]. Qed.

Lemma sentiment_target_registered t : registered (sentiment_target t) = true.
Proof.
  destruct t as [l|]; simpl; [|reflexivity].
  destruct (Py.truthy l); [|reflexivity].
  destruct (String.eqb (Py.upper l) "POSITIVE"); [reflexivity|].
  destruct (String.eqb (Py.upper l) "NEGATIVE"); reflexivity.
Qed.

(** The emotion label decides when the table knows it. *)
Lemma chosen_target_emotion emo sent l s :
  Py.top_label emo = Some l ->
  Py.get mapping (Py.lower l) = Some s ->
  chosen_target emo sent = s.
Proof.
  intros Htop Hget. unfold chosen_target. rewrite Htop.
  pose proof (mapping_truthy_key _ _ Hget) as Hl. rewrite truthy_lower in Hl.
  destruct (mapping_values _ _ Hget) as [_ Hs].
  cbn [Py.truthy_opt]. rewrite Hl, Hget. cbn [Py.truthy_opt]. rewrite Hs.
  cbn [negb andb Py.or_else]. now rewrite Hs.
Qed.

(** Otherwise the sentiment label decides. *)
Lemma chosen_target_sentiment emo sent :
  (forall l, Py.top_label emo = Some l -> Py.get mapping (Py.lower l) = None) ->
  chosen_target emo sent = sentiment_target (Py.top_label sent).
Proof.
  intros Hnone. unfold chosen_target, sentiment_target.
  assert (Hchosen :
    (if Py.truthy_opt (Py.top_label emo)
     then match Py.top_label emo with
          | Some l => Py.get mapping (Py.lower l)
          | None => None
          end
     else None) = None).
  { destruct (Py.top_label emo) as [l|]; [|reflexivity].
    rewrite (Hnone l eq_refl). now destruct (Py.truthy_opt (Some l)). }
  rewrite Hchosen. cbn [Py.truthy_opt negb andb].
  destruct (Py.top_label sent) as [t|]; [|reflexivity].
  cbn [Py.truthy_opt]. destruct (Py.truthy t); [|reflexivity].
  destruct (String.eqb (Py.upper t) "POSITIVE"); [reflexivity|].
  destruct (String.eqb (Py.upper t) "NEGATIVE"); reflexivity.
Qed.

Lemma chosen_target_registered emo sent :
  registered (chosen_target emo sent) = true.
Proof.
  destruct (Py.top_label emo) as [l|] eqn:Htop.
  - destruct (Py.get mapping (Py.lower l)) as [s|] eqn:Hget.
    + rewrite (chosen_target_emotion emo sent l s Htop Hget).
      apply (mapping_values _ _ Hget).
    + rewrite chosen_target_sentiment; [apply sentiment_target_registered|].
      intros l' Hl'. congruence.
  - rewrite chosen_target_sentiment; [apply sentiment_target_registered|].
    intros l' Hl'. congruence.
Qed.

(** On a machine in a registered state, [update_from_nlp] moves to the
    target it computed and returns it. *)
Lemma update_from_nlp_registered emo sent self :
  registered (state self) = true ->
  update_from_nlp emo sent self
  = Ok (PyStr (chosen_target emo sent), set_state (chosen_target emo sent) self).
Proof.
  intros Hreg. unfold update_from_nlp, bind.
  rewrite (apply_transition_registered _ _ Hreg).
  now rewrite chosen_target_registered.
Qed.

Lemma reachable_registered self :
  reachable self ->
  registered (state self) = true /\ mood_score self = mood_score __init__.
Proof.
  induction 1 as [| emo sent self v self' _ [IHr IHm] Hstep
                  | target self v self' _ [IHr IHm] Hstep
                  | self g self' _ [IHr IHm] Hstep].
  - split; reflexivity.
  - rewrite (update_from_nlp_registered _ _ _ IHr) in Hstep.
    inversion Hstep; subst. simpl. split; [|assumption].
    apply chosen_target_registered.
  - rewrite (apply_transition_registered _ _ IHr) in Hstep.
    inversion Hstep; subst. simpl. split; [|assumption].
    destruct (registered target) eqn:Ht; [assumption | reflexivity].
  - unfold get_graphviz_source, bind, read_state, ret in Hstep.
    inversion Hstep; subst. now split.
Qed.

Lemma chosen_target_relabel f emo sent :
  (forall l, Py.top_label emo = Some l ->
             Py.get mapping (Py.lower (f l)) = Py.get mapping (Py.lower l)) ->
  (forall l, Py.truthy (f l) = Py.truthy l) ->
  chosen_target (relabel f emo) sent = chosen_target emo sent.
Proof.
  intros Hlow Htruth. unfold chosen_target. rewrite top_label_relabel.
  destruct (Py.top_label emo) as [l|]; [|reflexivity].
  cbn [option_map Py.truthy_opt]. now rewrite (Hlow l eq_refl), Htruth.
Qed.

(** The top label of a dictionary is one of its labels. *)
Lemma top_label_In d l : Py.top_label d = Some l -> In l (map fst d).
Proof.
  destruct d as [|x r]; [discriminate|]. simpl Py.top_label.
  intros H. injection H as <-. apply in_map, max_loop_In.
Qed.

Lemma update_from_nlp_same_target emo sent emo' sent' self :
  chosen_target emo sent = chosen_target emo' sent' ->
  update_from_nlp emo sent self = update_from_nlp emo' sent' self.
Proof. intros H. unfold update_from_nlp. now rewrite H. Qed.

(** ** The graph *)

Lemma complete_edges_length : List.length complete_edges = 42%nat.
Proof. reflexivity. Qed.

Lemma complete_edges_NoDup : NoDup complete_edges.
Proof.
  assert (H : nodup edge_dec complete_edges = complete_edges)
    by (vm_compute; reflexivity).
  rewrite <- H. apply NoDup_nodup.
Qed.

Lemma complete_edges_In s t :
  In (s, t) complete_edges <-> In s states /\ In t states /\ s <> t.
Proof.
  unfold complete_edges. rewrite in_flat_map. split.
  - intros (a & Ha & Hin). apply in_flat_map in Hin.
    destruct Hin as (b & Hb & Hin).
    destruct (String.eqb_spec a b) as [Heq | Hne]; simpl in Hin.
    + contradiction.
    + destruct Hin as [Hin | []]. inversion Hin; subst. auto.
  - intros (Hs & Ht & Hne). exists s. split; [assumption|].
    apply in_flat_map. exists t. split; [assumption|].
    destruct (String.eqb_spec s t) as [Heq | _]; [contradiction|].
    simpl. now left.
Qed.

Lemma states_NoDup : NoDup states.
Proof.
  assert (H : nodup string_dec states = states) by (vm_compute; reflexivity).
  rewrite <- H. apply NoDup_nodup.
Qed.

(** The graph of a machine whose state is one of the seven. *)
Lemma graph_of_registered self :
  In (state self) states ->
  exists g,
    get_graphviz_source self = Ok (g, self)
    /\ node_names g = states
    /\ edge_pairs g = complete_edges
    /\ active_nodes g = [state self].
Proof.
  destruct self as [st ms]. simpl. intros Hin.
  unfold get_graphviz_source, bind, read_state, ret. simpl state.
  eexists. split; [reflexivity|].
  unfold states in Hin. simpl in Hin.
  repeat (destruct Hin as [<- | Hin]; [repeat split; reflexivity|]).
  contradiction.
Qed.

(** * The claims *)

(** Membership of a literal state name in [states]. *)
Ltac in_states := unfold states; simpl; auto 10.

(** ** Transitions *)

(** C1, as the specification words it, fails: asked for a name outside the
    seven states, [_apply_transition] raises nothing. On the fresh machine
    the unknown target ["Ecstatic"] is answered by firing [to_neutral]. *)
Lemma unknown_target_is_not_rejected :
  ~ In "Ecstatic" states
  /\ In (state __init__) states
  /\ _apply_transition "Ecstatic" __init__
     = Ok (PyNone, set_state "Neutral" __init__)
  /\ ~ exists e, _apply_transition "Ecstatic" __init__ = Raise e.
Proof.
  split; [|split; [|split]].
  - unfold states. simpl. intuition discriminate.
  - simpl. auto.
  - reflexivity.
  - intros [e He]. discriminate He.
Qed.

(** C1 (amended): on a machine whose state is one of the seven,
    [_apply_transition] never raises: a target among the seven states
    becomes the current state, and any other name falls back to
    ["Neutral"]. *)
Theorem apply_transition_total target self :
  In (state self) states ->
  (In target states ->
   _apply_transition target self = Ok (PyNone, set_state target self))
  /\ (~ In target states ->
      _apply_transition target self = Ok (PyNone, set_state "Neutral" self)).
Proof.
  intros Hst. apply registered_In in Hst.
  rewrite (apply_transition_registered target self Hst).
  split; intros Ht.
  - apply registered_In in Ht. now rewrite Ht.
  - destruct (registered target) eqn:Hr; [|reflexivity].
    apply registered_In in Hr. contradiction.
Qed.

Lemma apply_transition_total_witness :
  In (state __init__) states
  /\ In "Sad" states
  /\ _apply_transition "Sad" __init__ = Ok (PyNone, set_state "Sad" __init__)
  /\ ~ In "Ecstatic" states
  /\ _apply_transition "Ecstatic" __init__
     = Ok (PyNone, set_state "Neutral" __init__).
Proof.
  assert (H : In (state __init__) states) by in_states.
  assert (Hsad : In "Sad" states) by in_states.
  assert (Hno : ~ In "Ecstatic" states)
    by (unfold states; simpl; intuition discriminate).
  split; [exact H|]. split; [exact Hsad|].
  split; [exact (proj1 (apply_transition_total "Sad" __init__ H) Hsad)|].
  split; [exact Hno|].
  exact (proj2 (apply_transition_total "Ecstatic" __init__ H) Hno).
Defined.

(** C5, as the specification words it, fails on the returned value:
    [_apply_transition] has no [return] statement, so moving the fresh
    machine from ["Neutral"] to ["Happy"] hands back [None], not the new
    state. *)
Lemma apply_transition_returns_none :
  In "Neutral" states /\ In "Happy" states
  /\ state __init__ = "Neutral"
  /\ _apply_transition "Happy" __init__
     = Ok (PyNone, set_state "Happy" __init__)
  /\ forall self', _apply_transition "Happy" __init__
                   <> Ok (PyStr "Happy", self').
Proof.
  repeat split; try (simpl; auto; fail).
  intros self' H. discriminate H.
Qed.

(** C5 (amended): for every ordered pair (A, B) of the seven states,
    A = B included, [_apply_transition B] on a machine in state A succeeds
    and leaves the machine in state B with nothing else changed; the call
    itself returns [None], and [self.state] read right after it is B. *)
Theorem apply_transition_complete A B self :
  In A states -> In B states -> state self = A ->
  _apply_transition B self = Ok (PyNone, set_state B self)
  /\ state (set_state B self) = B
  /\ mood_score (set_state B self) = mood_score self
  /\ (_apply_transition B ;;; read_state) self = Ok (B, set_state B self).
Proof.
  intros HA HB Hst. rewrite <- Hst in HA.
  apply registered_In in HA, HB.
  pose proof (apply_transition_registered B self HA) as Hok.
  rewrite HB in Hok. unfold bind. rewrite Hok.
  repeat split; reflexivity.
Qed.

Lemma apply_transition_complete_witness :
  In "Angry" states /\ In "Curious" states
  /\ state (set_state "Angry" __init__) = "Angry"
  /\ _apply_transition "Curious" (set_state "Angry" __init__)
     = Ok (PyNone, set_state "Curious" (set_state "Angry" __init__)).
Proof.
  assert (HA : In "Angry" states) by in_states.
  assert (HB : In "Curious" states) by in_states.
  split; [exact HA|]. split; [exact HB|]. split; [reflexivity|].
  exact (proj1 (apply_transition_complete "Angry" "Curious"
                  (set_state "Angry" __init__) HA HB eq_refl)).
Defined.

(** ** Selection *)

(** C2: for every pair of score dictionaries, the empty ones included,
    [update_from_nlp] on a machine in one of the seven states raises
    nothing and returns one of the seven states, which is the machine's
    state afterwards. *)
Theorem update_from_nlp_total emo sent self :
  In (state self) states ->
  exists s,
    In s states
    /\ update_from_nlp emo sent self = Ok (PyStr s, set_state s self).
Proof.
  intros Hst. apply registered_In in Hst.
  exists (chosen_target emo sent). split.
  - apply registered_In, chosen_target_registered.
  - now apply update_from_nlp_registered.
Qed.

Lemma update_from_nlp_total_witness :
  In (state __init__) states
  /\ exists s,
       In s states
       /\ update_from_nlp [] [] __init__ = Ok (PyStr s, set_state s __init__).
Proof.
  assert (H : In (state __init__) states) by in_states.
  split; [exact H | exact (update_from_nlp_total [] [] __init__ H)].
Defined.



(** C4: when the emotion dictionary gives no usable label (it is empty, or
    the label carrying its greatest weight, lower-cased, is not a key of the
    label table), the sentiment dictionary decides: the label carrying its
    greatest weight, upper-cased, gives ["Happy"] for POSITIVE, ["Sad"] for
    NEGATIVE and ["Neutral"] for anything else, and an empty sentiment
    dictionary gives ["Neutral"] too. Among labels of equal greatest weight
    the first counts. *)
Theorem sentiment_fallback emo sent self :
  In (state self) states ->
  emo = [] \/ (exists i l w, greatest emo w /\ first_with emo i l w
                             /\ Py.get mapping (Py.lower l) = None) ->
  (sent = [] ->
   update_from_nlp emo sent self = Ok (PyStr "Neutral", set_state "Neutral" self))
  /\ (forall j t v,
         greatest sent v -> first_with sent j t v ->
         (Py.upper t = "POSITIVE" ->
          update_from_nlp emo sent self
          = Ok (PyStr "Happy", set_state "Happy" self))
         /\ (Py.upper t = "NEGATIVE" ->
             update_from_nlp emo sent self
             = Ok (PyStr "Sad", set_state "Sad" self))
         /\ (Py.upper t <> "POSITIVE" -> Py.upper t <> "NEGATIVE" ->
             update_from_nlp emo sent self
             = Ok (PyStr "Neutral", set_state "Neutral" self))).
Proof.
  intros Hst Hemo. apply registered_In in Hst.
  rewrite (update_from_nlp_registered emo sent self Hst).
  assert (Ht : chosen_target emo sent = sentiment_target (Py.top_label sent)).
  { apply chosen_target_sentiment. intros l Hl.
    destruct Hemo as [-> | (i & l' & w & Hg & Hf & Hnone)]; [discriminate|].
    rewrite (top_label_first_greatest emo i l' w Hg Hf) in Hl. congruence. }
  rewrite Ht. split.
  - intros ->. reflexivity.
  - intros j t v Hg Hf.
    rewrite (top_label_first_greatest sent j t v Hg Hf).
    unfold sentiment_target. split; [|split].
    + intros Hup. rewrite <- truthy_upper, Hup. reflexivity.
    + intros Hup. rewrite <- truthy_upper, Hup. reflexivity.
    + intros Hp Hn. apply String.eqb_neq in Hp, Hn. rewrite Hp, Hn.
      now destruct (Py.truthy t).
Qed.

Lemma sentiment_fallback_witness :
  In (state __init__) states
  /\ update_from_nlp [("joy", 0.1%float); ("unknown_label", 0.9%float)]
                     [("NEGATIVE", 0.3%float); ("POSITIVE", 0.7%float)] __init__
     = Ok (PyStr "Happy", set_state "Happy" __init__)
  /\ update_from_nlp [] [("negative", 0.6%float)] __init__
     = Ok (PyStr "Sad", set_state "Sad" __init__)
  /\ update_from_nlp []
       [(Unicode.encode [0x70; 0x6F; 0x17F; 0x69; 0x74; 0x69; 0x76; 0x65]%N,
         1%float)] __init__
     = Ok (PyStr "Happy", set_state "Happy" __init__)
  /\ update_from_nlp [] [("MIXED", 1%float)] __init__
     = Ok (PyStr "Neutral", set_state "Neutral" __init__)
  /\ update_from_nlp [] [] __init__
     = Ok (PyStr "Neutral", set_state "Neutral" __init__).
Proof.
  assert (H : In (state __init__) states) by in_states.
  assert (Hone : forall (l : string) (w : float) i x,
             (i < 0)%nat -> nth_error [(l, w)] i = Some x ->
             PrimFloat.eqb (snd x) w = false)
    by (intros l w i x Hi; lia).
  assert (Hunk : [("joy", 0.1%float); ("unknown_label", 0.9%float)] = []
                 \/ (exists i l w,
                        greatest [("joy", 0.1%float);
                                  ("unknown_label", 0.9%float)] w
                        /\ first_with [("joy", 0.1%float);
                                       ("unknown_label", 0.9%float)] i l w
                        /\ Py.get mapping (Py.lower l) = None)).
  { right. exists 1%nat, "unknown_label", 0.9%float. split; [|split].
    - intros x [<- | [<- | []]]; vm_compute; reflexivity.
    - split; [reflexivity|].
      intros j x Hj Hx. assert (j = 0)%nat by lia. subst j. simpl in Hx.
      inversion Hx; subst. vm_compute. reflexivity.
    - vm_compute. reflexivity. }
  assert (Hpos : greatest [("NEGATIVE", 0.3%float); ("POSITIVE", 0.7%float)]
                          0.7%float
                 /\ first_with [("NEGATIVE", 0.3%float);
                                ("POSITIVE", 0.7%float)]
                               1 "POSITIVE" 0.7%float).
  { split.
    - intros x [<- | [<- | []]]; vm_compute; reflexivity.
    - split; [reflexivity|].
      intros j x Hj Hx. assert (j = 0)%nat by lia. subst j. simpl in Hx.
      inversion Hx; subst. vm_compute. reflexivity. }
  assert (Hneg : greatest [("negative", 0.6%float)] 0.6%float
                 /\ first_with [("negative", 0.6%float)]
                               0 "negative" 0.6%float).
  { split.
    - intros x [<- | []]; vm_compute; reflexivity.
    - split; [reflexivity | apply Hone]. }
  assert (Hlong :
    greatest [(Unicode.encode [0x70; 0x6F; 0x17F; 0x69; 0x74; 0x69; 0x76; 0x65]%N,
               1%float)] 1%float
    /\ first_with
         [(Unicode.encode [0x70; 0x6F; 0x17F; 0x69; 0x74; 0x69; 0x76; 0x65]%N,
           1%float)] 0
         (Unicode.encode [0x70; 0x6F; 0x17F; 0x69; 0x74; 0x69; 0x76; 0x65]%N)
         1%float).
  { split.
    - intros x [<- | []]; vm_compute; reflexivity.
    - split; [reflexivity | apply Hone]. }
  assert (Hmix : greatest [("MIXED", 1%float)] 1%float
                 /\ first_with [("MIXED", 1%float)] 0 "MIXED" 1%float).
  { split.
    - intros x [<- | []]; vm_compute; reflexivity.
    - split; [reflexivity | apply Hone]. }
  split; [exact H|]. split; [|split; [|split; [|split]]].
  - apply (proj1 (proj2 (sentiment_fallback _ _ __init__ H Hunk)
                    1%nat "POSITIVE" 0.7%float (proj1 Hpos) (proj2 Hpos))).
    vm_compute. reflexivity.
  - apply (proj1 (proj2 (proj2 (sentiment_fallback [] _ __init__ H
                                  (or_introl eq_refl))
                           0%nat "negative" 0.6%float
                           (proj1 Hneg) (proj2 Hneg)))).
    vm_compute. reflexivity.
  - apply (proj1 (proj2 (sentiment_fallback [] _ __init__ H
                           (or_introl eq_refl))
                    0%nat _ 1%float (proj1 Hlong) (proj2 Hlong))).
    vm_compute. reflexivity.
  - apply (proj2 (proj2 (proj2 (sentiment_fallback [] _ __init__ H
                                  (or_introl eq_refl))
                           0%nat "MIXED" 1%float
                           (proj1 Hmix) (proj2 Hmix))));
      vm_compute; discriminate.
  - exact (proj1 (sentiment_fallback [] [] __init__ H (or_introl eq_refl))
             eq_refl).
Defined.

(** C10: the state [update_from_nlp] leaves, and the value it returns,
    depend on the two dictionaries only: run from any two machines whose
    states are among the seven, it returns the same state and leaves both
    machines in it. *)
Theorem update_from_nlp_forgets_prior_state emo sent selfA selfB :
  In (state selfA) states -> In (state selfB) states ->
  exists s,
    update_from_nlp emo sent selfA = Ok (PyStr s, set_state s selfA)
    /\ update_from_nlp emo sent selfB = Ok (PyStr s, set_state s selfB)
    /\ state (set_state s selfA) = state (set_state s selfB).
Proof.
  intros HA HB. apply registered_In in HA, HB.
  exists (chosen_target emo sent). repeat split.
  - now apply update_from_nlp_registered.
  - now apply update_from_nlp_registered.
Qed.

Lemma update_from_nlp_forgets_prior_state_witness :
  In (state __init__) states
  /\ In (state (set_state "Angry" __init__)) states
  /\ exists s,
       update_from_nlp [("fear", 0.8%float)] [] __init__
       = Ok (PyStr s, set_state s __init__)
       /\ update_from_nlp [("fear", 0.8%float)] [] (set_state "Angry" __init__)
          = Ok (PyStr s, set_state s (set_state "Angry" __init__))
       /\ state (set_state s __init__)
          = state (set_state s (set_state "Angry" __init__)).
Proof.
  assert (HA : In (state __init__) states) by in_states.
  assert (HB : In (state (set_state "Angry" __init__)) states)
    by in_states.
  split; [exact HA|]. split; [exact HB|].
  exact (update_from_nlp_forgets_prior_state [("fear", 0.8%float)] []
           __init__ (set_state "Angry" __init__) HA HB).
Defined.

(** C7, as the specification words it, fails for labels that are not
    ASCII: [str.upper] sends the long s, U+017F, to the letter S, which
    [str.lower] sends to s. The label made of U+017F, a, d is in lower case
    already and is no key of the label table, so it selects ["Neutral"];
    written in upper case it is ["SAD"], which selects ["Sad"]. *)
Lemma upper_casing_a_label_can_change_the_state :
  Py.lower (Unicode.encode [0x17F; 0x61; 0x64]%N)
  = Unicode.encode [0x17F; 0x61; 0x64]%N
  /\ Py.upper (Unicode.encode [0x17F; 0x61; 0x64]%N) = "SAD"
  /\ update_from_nlp [(Unicode.encode [0x17F; 0x61; 0x64]%N, 1%float)] []
       __init__
     = Ok (PyStr "Neutral", set_state "Neutral" __init__)
  /\ update_from_nlp
       (relabel Py.upper [(Unicode.encode [0x17F; 0x61; 0x64]%N, 1%float)])
       [] __init__
     = Ok (PyStr "Sad", set_state "Sad" __init__).
Proof. repeat split; vm_compute; reflexivity. Qed.

(** C7 (amended): emotion labels are looked up without regard to case as far
    as the case mappings allow. For every weight [w], [{"JOY": w}] and
    [{"joy": w}] both give ["Happy"]. Writing the labels of an emotion
    dictionary in lower case leaves the outcome of [update_from_nlp] as it
    was, and so does writing them in upper case when they are ASCII; in
    both cases the rewritten labels are to stay distinct, so that they are
    the keys of a dictionary again. *)
Theorem emotion_labels_ignore_case self :
  In (state self) states ->
  (forall w sent,
      update_from_nlp [("JOY", w)] sent self
      = Ok (PyStr "Happy", set_state "Happy" self)
      /\ update_from_nlp [("joy", w)] sent self
         = Ok (PyStr "Happy", set_state "Happy" self))
  /\ (forall emo sent,
         NoDup (map fst (relabel Py.lower emo)) ->
         update_from_nlp (relabel Py.lower emo) sent self
         = update_from_nlp emo sent self)
  /\ (forall emo sent,
         (forall l, In l (map fst emo) -> is_ascii l = true) ->
         NoDup (map fst (relabel Py.upper emo)) ->
         update_from_nlp (relabel Py.upper emo) sent self
         = update_from_nlp emo sent self).
Proof.
  intros Hst. apply registered_In in Hst. split; [|split].
  - intros w sent.
    rewrite !(update_from_nlp_registered _ _ self Hst).
    assert (H1 : Py.get mapping (Py.lower "JOY") = Some "Happy")
      by (vm_compute; reflexivity).
    assert (H2 : Py.get mapping (Py.lower "joy") = Some "Happy")
      by (vm_compute; reflexivity).
    rewrite (chosen_target_emotion [("JOY", w)] sent "JOY" "Happy" eq_refl H1).
    rewrite (chosen_target_emotion [("joy", w)] sent "joy" "Happy" eq_refl H2).
    split; reflexivity.
  - intros emo sent _. apply update_from_nlp_same_target.
    apply chosen_target_relabel.
    + intros l _. apply get_mapping_lower_lower.
    + apply truthy_lower.
  - intros emo sent Hascii _. apply update_from_nlp_same_target.
    apply chosen_target_relabel.
    + intros l Hl. rewrite lower_upper_ascii; [reflexivity|].
      apply Hascii. now apply top_label_In.
    + apply truthy_upper.
Qed.

Lemma emotion_labels_ignore_case_witness :
  In (state __init__) states
  /\ update_from_nlp [("JOY", 1%float)] [] __init__
     = Ok (PyStr "Happy", set_state "Happy" __init__)
  /\ update_from_nlp [("joy", 1%float)] [] __init__
     = Ok (PyStr "Happy", set_state "Happy" __init__)
  /\ update_from_nlp
       (relabel Py.lower [("Joy", 0.3%float); ("ANGER", 0.7%float)]) []
       __init__
     = update_from_nlp [("Joy", 0.3%float); ("ANGER", 0.7%float)] [] __init__
  /\ update_from_nlp
       (relabel Py.upper [("Joy", 0.3%float); ("anger", 0.7%float)]) []
       __init__
     = update_from_nlp [("Joy", 0.3%float); ("anger", 0.7%float)] [] __init__.
Proof.
  assert (H : In (state __init__) states) by in_states.
  assert (Hlow : NoDup (map fst (relabel Py.lower
                   [("Joy", 0.3%float); ("ANGER", 0.7%float)]))).
  { vm_compute. repeat constructor; simpl; intuition discriminate. }
  assert (Hup : NoDup (map fst (relabel Py.upper
                  [("Joy", 0.3%float); ("anger", 0.7%float)]))).
  { vm_compute. repeat constructor; simpl; intuition discriminate. }
  assert (Hascii : forall l,
             In l (map fst [("Joy", 0.3%float); ("anger", 0.7%float)]) ->
             is_ascii l = true).
  { intros l [<- | [<- | []]]; reflexivity. }
  destruct (emotion_labels_ignore_case __init__ H) as (Hjoy & Hl & Hu).
  split; [exact H|].
  split; [exact (proj1 (Hjoy 1%float []))|].
  split; [exact (proj2 (Hjoy 1%float []))|].
  split; [exact (Hl _ [] Hlow) | exact (Hu _ [] Hascii Hup)].
Defined.

(** C8: when several labels of a dictionary share its greatest weight, the
    label met first in iteration order is the one selected, in the emotion
    dictionary and in the sentiment dictionary alike: [update_from_nlp]
    behaves as if that label were the only entry. *)
Theorem ties_go_to_the_first_label d i l w :
  greatest d w -> first_with d i l w ->
  Py.top_label d = Some l
  /\ (forall sent self,
         update_from_nlp d sent self = update_from_nlp [(l, w)] sent self)
  /\ (forall emo self,
         update_from_nlp emo d self = update_from_nlp emo [(l, w)] self).
Proof.
  intros Hg Hf.
  pose proof (top_label_first_greatest d i l w Hg Hf) as Htop.
  split; [assumption|].
  split; intros; apply update_from_nlp_same_target;
    unfold chosen_target; rewrite Htop; reflexivity.
Qed.

Lemma ties_go_to_the_first_label_witness :
  greatest [("fear", 0.2%float); ("sadness", 0.4%float); ("joy", 0.4%float)]
           0.4%float
  /\ first_with [("fear", 0.2%float); ("sadness", 0.4%float); ("joy", 0.4%float)]
                1 "sadness" 0.4%float
  /\ Py.top_label [("fear", 0.2%float); ("sadness", 0.4%float);
                   ("joy", 0.4%float)]
     = Some "sadness"
  /\ update_from_nlp [("fear", 0.2%float); ("sadness", 0.4%float);
                      ("joy", 0.4%float)] [] __init__
     = Ok (PyStr "Sad", set_state "Sad" __init__).
Proof.
  assert (Hg : greatest [("fear", 0.2%float); ("sadness", 0.4%float);
                         ("joy", 0.4%float)] 0.4%float).
  { intros x [<- | [<- | [<- | []]]]; vm_compute; reflexivity. }
  assert (Hf : first_with [("fear", 0.2%float); ("sadness", 0.4%float);
                           ("joy", 0.4%float)] 1 "sadness" 0.4%float).
  { split; [reflexivity|].
    intros j x Hj Hx.
    assert (j = 0)%nat by lia. subst j. simpl in Hx.
    inversion Hx; subst. vm_compute. reflexivity. }
  split; [exact Hg|]. split; [exact Hf|].
  destruct (ties_go_to_the_first_label _ 1 "sadness" 0.4%float Hg Hf)
    as (Htop & Hemo & _).
  split; [exact Htop|].
  rewrite (Hemo [] __init__). reflexivity.
Defined.

(** ** Graph description *)

(** C6: for every reachable machine, the graph [get_graphviz_source] builds
    has exactly the seven states as its nodes, each once, and exactly 42
    directed edges, one for each ordered pair of different states; exactly
    one node is marked active, and it is the current state. *)
Theorem graph_is_complete_with_one_active_node self :
  reachable self ->
  exists g,
    get_graphviz_source self = Ok (g, self)
    /\ node_names g = states
    /\ List.length (node_names g) = 7%nat
    /\ NoDup (node_names g)
    /\ List.length (edge_pairs g) = 42%nat
    /\ NoDup (edge_pairs g)
    /\ (forall s t,
           In (s, t) (edge_pairs g) <-> In s states /\ In t states /\ s <> t)
    /\ active_nodes g = [state self].
Proof.
  intros Hreach.
  destruct (reachable_registered self Hreach) as [Hreg _].
  apply registered_In in Hreg.
  destruct (graph_of_registered self Hreg) as (g & Hrun & Hn & He & Ha).
  exists g. rewrite Hn, He.
  split; [assumption|]. split; [reflexivity|]. split; [reflexivity|].
  split; [apply states_NoDup|]. split; [apply complete_edges_length|].
  split; [apply complete_edges_NoDup|].
  split; [apply complete_edges_In | assumption].
Qed.

Lemma graph_is_complete_with_one_active_node_witness :
  reachable (set_state "Surprised" __init__)
  /\ exists g,
       get_graphviz_source (set_state "Surprised" __init__)
       = Ok (g, set_state "Surprised" __init__)
       /\ List.length (node_names g) = 7%nat
       /\ List.length (edge_pairs g) = 42%nat
       /\ active_nodes g = ["Surprised"].
Proof.
  assert (H : reachable (set_state "Surprised" __init__)).
  { apply (reach_update [("surprise", 1%float)] [] __init__ (PyStr "Surprised")).
    - exact reach_init.
    - vm_compute. reflexivity. }
  split; [exact H|].
  destruct (graph_is_complete_with_one_active_node
              (set_state "Surprised" __init__) H)
    as (g & Hrun & _ & Hn & _ & He & _ & _ & Ha).
  exists g. repeat split; assumption.
Defined.

(** C9: [get_graphviz_source] is a query: on any machine it succeeds and
    leaves every field as it was, and two calls in a row return the same
    description. *)
Theorem graph_query_is_pure self :
  exists g,
    get_graphviz_source self = Ok (g, self)
    /\ (g1 <- get_graphviz_source ;; g2 <- get_graphviz_source ;; ret (g1, g2))
         self = Ok ((g, g), self).
Proof.
  unfold get_graphviz_source, bind, read_state, ret.
  eexists. split; reflexivity.
Qed.

(** * Further properties of the engine and of the page script *)

(** ** More on float comparisons *)

Ltac compare_cases :=
  repeat match goal with
  | H : context [Z.compare ?a ?b] |- _ =>
      destruct (Z.compare_spec a b); simpl in H
  | |- context [Z.compare ?a ?b] =>
      destruct (Z.compare_spec a b); simpl
  | H : context [Pos.compare_cont Eq ?a ?b] |- _ =>
      change (Pos.compare_cont Eq a b) with (Pos.compare a b) in H;
      destruct (Pos.compare_spec a b); simpl in H
  | |- context [Pos.compare_cont Eq ?a ?b] =>
      change (Pos.compare_cont Eq a b) with (Pos.compare a b);
      destruct (Pos.compare_spec a b); simpl
  end.

Lemma SFcompare_le_lt_trans x y z c :
  SpecFloat.SFcompare x y = Some c -> c <> Gt ->
  SpecFloat.SFcompare y z = Some Lt ->
  SpecFloat.SFcompare x z = Some Lt.
Proof.
  destruct x as [sx | sx | | sx mx ex], y as [sy | sy | | sy my ey],
    z as [sz | sz | | sz mz ez]; simpl; intros Hxy Hc Hyz;
    try discriminate; try reflexivity;
    repeat match goal with s : bool |- _ => destruct s end;
    simpl in *; try discriminate; try reflexivity;
    try (injection Hxy as <-; congruence);
    injection Hxy as Hxy; injection Hyz as Hyz; subst c; f_equal;
    compare_cases; subst; try congruence; try lia; try reflexivity.
Qed.

(** Comparing with a NaN gives no order, and only a NaN is unordered with
    itself. *)
Lemma SFcompare_None x y :
  SpecFloat.SFcompare x y = None <->
  x = SpecFloat.S754_nan \/ y = SpecFloat.S754_nan.
Proof.
  destruct x as [sx | sx | | sx mx ex], y as [sy | sy | | sy my ey]; simpl;
    split; intros H; try discriminate; auto;
    destruct H as [H | H]; discriminate H.
Qed.

Lemma SFcompare_refl x :
  x <> SpecFloat.S754_nan -> SpecFloat.SFcompare x x = Some Eq.
Proof.
  destruct x as [sx | sx | | sx mx ex]; simpl; intros H;
    try congruence; try (destruct sx; reflexivity).
  destruct sx; rewrite Z.compare_refl;
    change (Pos.compare_cont Eq mx mx) with (Pos.compare mx mx);
    now rewrite Pos.compare_refl.
Qed.

Lemma is_nan_spec w :
  PrimFloat.is_nan w = true <-> Prim2SF w = SpecFloat.S754_nan.
Proof.
  unfold PrimFloat.is_nan. rewrite FloatAxioms.eqb_spec.
  unfold SpecFloat.SFeqb. split.
  - intros H.
    destruct (SpecFloat.SFcompare (Prim2SF w) (Prim2SF w)) as [[]|] eqn:Hc;
      try discriminate H.
    + pose proof (SFcompare_antisym (Prim2SF w) (Prim2SF w)) as Ha.
      rewrite Hc in Ha. discriminate Ha.
    + pose proof (SFcompare_antisym (Prim2SF w) (Prim2SF w)) as Ha.
      rewrite Hc in Ha. discriminate Ha.
    + apply SFcompare_None in Hc. now destruct Hc.
  - intros ->. reflexivity.
Qed.

(** Nothing is greater than a NaN and a NaN is greater than nothing. *)
Lemma gt_nan w x :
  PrimFloat.is_nan w = true -> Py.gt w x = false /\ Py.gt x w = false.
Proof.
  intros H. apply is_nan_spec in H. unfold Py.gt. rewrite !ltb_spec.
  unfold SpecFloat.SFltb. rewrite H.
  destruct (Prim2SF x); split; reflexivity.
Qed.

Lemma ltb_irrefl w : PrimFloat.ltb w w = false.
Proof.
  rewrite ltb_spec. unfold SpecFloat.SFltb.
  pose proof (SFcompare_antisym (Prim2SF w) (Prim2SF w)) as Ha.
  destruct (SpecFloat.SFcompare (Prim2SF w) (Prim2SF w)) as [[]|];
    try reflexivity; discriminate Ha.
Qed.

Lemma ltb_leb x w : PrimFloat.ltb x w = true -> PrimFloat.leb x w = true.
Proof.
  rewrite ltb_spec, leb_spec. unfold SpecFloat.SFltb, SpecFloat.SFleb.
  destruct (SpecFloat.SFcompare (Prim2SF x) (Prim2SF w)) as [[]|]; congruence.
Qed.

Lemma ltb_neq x w : PrimFloat.ltb x w = true -> PrimFloat.eqb x w = false.
Proof.
  rewrite ltb_spec, FloatAxioms.eqb_spec.
  unfold SpecFloat.SFltb, SpecFloat.SFeqb.
  destruct (SpecFloat.SFcompare (Prim2SF x) (Prim2SF w)) as [[]|]; congruence.
Qed.

Lemma leb_ltb_trans x y z :
  PrimFloat.leb x y = true -> PrimFloat.ltb y z = true ->
  PrimFloat.ltb x z = true.
Proof.
  rewrite leb_spec, !ltb_spec. unfold SpecFloat.SFleb, SpecFloat.SFltb.
  intros Hxy Hyz.
  destruct (SpecFloat.SFcompare (Prim2SF x) (Prim2SF y)) as [c|] eqn:Hc;
    [|discriminate].
  destruct (SpecFloat.SFcompare (Prim2SF y) (Prim2SF z)) as [[]|] eqn:Hd;
    try discriminate.
  rewrite (SFcompare_le_lt_trans _ _ _ c Hc); [reflexivity | | exact Hd].
  intros ->. discriminate.
Qed.

Lemma leb_refl w : PrimFloat.is_nan w = false -> PrimFloat.leb w w = true.
Proof.
  intros H. rewrite leb_spec. unfold SpecFloat.SFleb.
  rewrite SFcompare_refl; [reflexivity|].
  intros Hn. apply is_nan_spec in Hn. congruence.
Qed.

(** Two weights that are no NaN are comparable. *)
Lemma not_gt_leb x b :
  PrimFloat.is_nan x = false -> PrimFloat.is_nan b = false ->
  Py.gt x b = false -> PrimFloat.leb x b = true.
Proof.
  intros Hx Hb. unfold Py.gt. rewrite ltb_spec, leb_spec.
  unfold SpecFloat.SFltb, SpecFloat.SFleb.
  rewrite (SFcompare_antisym (Prim2SF x) (Prim2SF b)).
  destruct (SpecFloat.SFcompare (Prim2SF x) (Prim2SF b)) as [[]|] eqn:Hc;
    simpl; try congruence.
  apply SFcompare_None in Hc. intros _.
  destruct Hc as [Hc | Hc]; apply is_nan_spec in Hc; congruence.
Qed.

(** ** More on the maximum loop *)

Lemma max_loop_skips_nan best r1 x r2 :
  PrimFloat.is_nan (snd x) = true ->
  Py.max_loop best (r1 ++ x :: r2)%list = Py.max_loop best (r1 ++ r2)%list.
Proof.
  intros Hnan. rewrite !max_loop_app. simpl.
  now rewrite (proj1 (gt_nan (snd x) (snd (Py.max_loop best r1)) Hnan)).
Qed.

(** With [best] of weight [w] and nothing heavier behind it, [best] stays. *)
Lemma max_loop_dominant l w r :
  (forall x, In x r -> x = (l, w) \/ PrimFloat.ltb (snd x) w = true) ->
  Py.max_loop (l, w) r = (l, w).
Proof.
  intros H. apply max_loop_keeps. intros x Hx. simpl.
  destruct (H x Hx) as [-> | Hlt].
  - unfold Py.gt. apply ltb_irrefl.
  - apply leb_not_gt. now apply ltb_leb.
Qed.

Lemma max_loop_reaches_dominant l w best r :
  PrimFloat.ltb (snd best) w = true ->
  In (l, w) r ->
  (forall x, In x r -> x = (l, w) \/ PrimFloat.ltb (snd x) w = true) ->
  Py.max_loop best r = (l, w).
Proof.
  revert best. induction r as [|x r IH]; intros best Hbest Hin Hall; simpl.
  - contradiction.
  - destruct (Hall x (or_introl eq_refl)) as [-> | Hx].
    + simpl. unfold Py.gt at 1. rewrite Hbest.
      apply max_loop_dominant. intros y Hy. apply Hall. now right.
    + destruct Hin as [-> | Hin].
      * simpl. unfold Py.gt at 1. rewrite Hbest.
        apply max_loop_dominant. intros y Hy. apply Hall. now right.
      * apply IH; [|assumption|].
        -- now destruct (Py.gt (snd x) (snd best)).
        -- intros y Hy. apply Hall. now right.
Qed.

Lemma top_label_dominant d l w :
  In (l, w) d ->
  (forall x, In x d -> x = (l, w) \/ PrimFloat.ltb (snd x) w = true) ->
  Py.top_label d = Some l.
Proof.
  destruct d as [|x r]; [contradiction|]. intros Hin Hall. simpl.
  destruct (Hall x (or_introl eq_refl)) as [-> | Hx].
  - rewrite max_loop_dominant; [reflexivity|].
    intros y Hy. apply Hall. now right.
  - destruct Hin as [-> | Hin].
    + rewrite max_loop_dominant; [reflexivity|].
      intros y Hy. apply Hall. now right.
    + rewrite (max_loop_reaches_dominant l w x r Hx Hin); [reflexivity|].
      intros y Hy. apply Hall. now right.
Qed.

(** The loop splits what it has seen around the item it ends on: strictly
    lighter items before it, no heavier item after it. *)
Lemma max_loop_split pre best mid r :
  PrimFloat.is_nan (snd best) = false ->
  (forall x, In x r -> PrimFloat.is_nan (snd x) = false) ->
  (forall x, In x pre -> PrimFloat.ltb (snd x) (snd best) = true) ->
  (forall x, In x mid -> PrimFloat.leb (snd x) (snd best) = true) ->
  exists pre' post',
    (pre ++ best :: mid ++ r = pre' ++ Py.max_loop best r :: post')%list
    /\ (forall x, In x pre' ->
                  PrimFloat.ltb (snd x) (snd (Py.max_loop best r)) = true)
    /\ (forall x, In x post' ->
                  PrimFloat.leb (snd x) (snd (Py.max_loop best r)) = true).
Proof.
  revert pre best mid.
  induction r as [|x r IH]; intros pre best mid Hbest Hr Hpre Hmid; simpl.
  - exists pre, mid. rewrite app_nil_r. auto.
  - assert (Hx : PrimFloat.is_nan (snd x) = false)
      by (apply Hr; now left).
    assert (Hr' : forall y, In y r -> PrimFloat.is_nan (snd y) = false)
      by (intros y Hy; apply Hr; now right).
    destruct (Py.gt (snd x) (snd best)) eqn:Hgt.
    + destruct (IH (pre ++ best :: mid)%list x [] Hx Hr') as (pre' & post' & Heq & H1 & H2).
      * intros y Hy. unfold Py.gt in Hgt.
        apply in_app_or in Hy. destruct Hy as [Hy | [<- | Hy]].
        -- apply (leb_ltb_trans _ (snd best)); [|assumption].
           apply ltb_leb. now apply Hpre.
        -- assumption.
        -- apply (leb_ltb_trans _ (snd best)); [|assumption]. now apply Hmid.
      * intros y [].
      * exists pre', post'. split; [|now split].
        rewrite <- Heq. simpl. rewrite <- app_assoc. reflexivity.
    + destruct (IH pre best (mid ++ [x])%list Hbest Hr' Hpre) as (pre' & post' & Heq & H1 & H2).
      * intros y Hy. apply in_app_or in Hy. destruct Hy as [Hy | [<- | []]].
        -- now apply Hmid.
        -- now apply not_gt_leb.
      * exists pre', post'. split; [|now split].
        rewrite <- Heq. rewrite <- app_assoc. reflexivity.
Qed.

Lemma chosen_target_relabel_sentiment f emo sent :
  (forall l, Py.top_label sent = Some l -> Py.upper (f l) = Py.upper l) ->
  (forall l, Py.truthy (f l) = Py.truthy l) ->
  chosen_target emo (relabel f sent) = chosen_target emo sent.
Proof.
  intros Hup Htruth. unfold chosen_target. rewrite top_label_relabel.
  destruct (Py.top_label sent) as [l|]; [|reflexivity].
  cbn [option_map Py.truthy_opt]. now rewrite (Hup l eq_refl), Htruth.
Qed.

Lemma sentiment_target_values t :
  sentiment_target t = "Happy" \/ sentiment_target t = "Sad"
  \/ sentiment_target t = "Neutral".
Proof.
  destruct t as [l|]; simpl; [|auto].
  destruct (Py.truthy l); [|auto].
  destruct (String.eqb (Py.upper l) "POSITIVE"); [auto|].
  destruct (String.eqb (Py.upper l) "NEGATIVE"); auto.
Qed.

Lemma image_of_state s :
  In s states -> exists f, Py.get IMAGE_MAP s = Some f.
Proof.
  unfold states. simpl.
  intros H; repeat (destruct H as [<- | H]; [eexists; reflexivity|]).
  contradiction.
Qed.

(** ** The machine over its lifetime *)

(** Whatever calls were made on it, a machine is in one of the seven states
    and its [mood_score] is still the dictionary [__init__] built: every
    state with score [0.0]. No method writes to it. *)
Theorem machine_invariant self :
  reachable self ->
  In (state self) states
  /\ mood_score self = map (fun s => (s, 0%float)) states
  /\ forall s, In s states -> Py.get (mood_score self) s = Some 0%float.
Proof.
  intros Hreach. destruct (reachable_registered self Hreach) as [Hreg Hms].
  split; [now apply registered_In|]. split; [exact Hms|].
  rewrite Hms. unfold states. simpl.
  intros s H; repeat (destruct H as [<- | H]; [reflexivity|]).
  contradiction.
Qed.

Lemma machine_invariant_witness :
  reachable (set_state "Sad" __init__)
  /\ In (state (set_state "Sad" __init__)) states
  /\ Py.get (mood_score (set_state "Sad" __init__)) "Sad" = Some 0%float.
Proof.
  assert (H : reachable (set_state "Sad" __init__)).
  { apply (reach_update [("sadness", 0.8%float)] [("NEGATIVE", 0.6%float)]
             __init__ (PyStr "Sad")).
    - exact reach_init.
    - vm_compute. reflexivity. }
  destruct (machine_invariant _ H) as (Hst & _ & Hget).
  split; [exact H|]. split; [exact Hst|].
  apply Hget. in_states.
Defined.

(** The machine keeps no history: two updates in a row leave it as the
    second update alone would, and return what that one returns; the same
    holds for two calls of [_apply_transition]. *)
Theorem last_update_wins self :
  In (state self) states ->
  (forall emo1 sent1 emo2 sent2,
      (update_from_nlp emo1 sent1 ;;; update_from_nlp emo2 sent2) self
      = update_from_nlp emo2 sent2 self)
  /\ (forall a b,
         (_apply_transition a ;;; _apply_transition b) self
         = _apply_transition b self).
Proof.
  intros Hst. apply registered_In in Hst. split.
  - intros emo1 sent1 emo2 sent2. unfold bind at 1.
    rewrite (update_from_nlp_registered emo1 sent1 self Hst).
    rewrite !update_from_nlp_registered;
      [reflexivity | assumption | apply chosen_target_registered].
  - intros a b. unfold bind at 1.
    rewrite (apply_transition_registered a self Hst).
    rewrite !apply_transition_registered; [reflexivity | assumption |].
    simpl. destruct (registered a) eqn:Ha; [assumption | reflexivity].
Qed.

Lemma last_update_wins_witness :
  In (state __init__) states
  /\ (update_from_nlp [("anger", 1%float)] [] ;;;
      update_from_nlp [] [("POSITIVE", 1%float)]) __init__
     = update_from_nlp [] [("POSITIVE", 1%float)] __init__.
Proof.
  assert (H : In (state __init__) states) by in_states.
  split; [exact H|].
  exact (proj1 (last_update_wins __init__ H)
           [("anger", 1%float)] [] [] [("POSITIVE", 1%float)]).
Defined.

(** ** More on the selection *)

(** Sentiment alone can only give Happy, Sad or Neutral: when
    [update_from_nlp] returns any other state, the top emotion label,
    lower-cased, is a key of the label table and that state is its value. *)
Theorem other_states_come_from_an_emotion_label emo sent self s self' :
  In (state self) states ->
  update_from_nlp emo sent self = Ok (PyStr s, self') ->
  s <> "Happy" -> s <> "Sad" -> s <> "Neutral" ->
  exists l, Py.top_label emo = Some l
            /\ Py.get mapping (Py.lower l) = Some s.
Proof.
  intros Hst Hrun Hh Hs Hn. apply registered_In in Hst.
  rewrite (update_from_nlp_registered emo sent self Hst) in Hrun.
  injection Hrun as Hs' _.
  destruct (Py.top_label emo) as [l|] eqn:Htop.
  - destruct (Py.get mapping (Py.lower l)) as [s'|] eqn:Hget.
    + rewrite (chosen_target_emotion emo sent l s' Htop Hget) in Hs'.
      exists l. split; congruence.
    + rewrite chosen_target_sentiment in Hs' by (intros; congruence).
      destruct (sentiment_target_values (Py.top_label sent)) as [H | [H | H]];
        congruence.
  - rewrite chosen_target_sentiment in Hs' by (intros; congruence).
    destruct (sentiment_target_values (Py.top_label sent)) as [H | [H | H]];
      congruence.
Qed.

Lemma other_states_come_from_an_emotion_label_witness :
  In (state __init__) states
  /\ exists l, Py.top_label [("Trust", 0.6%float); ("joy", 0.4%float)] = Some l
               /\ Py.get mapping (Py.lower l) = Some "Curious".
Proof.
  assert (H : In (state __init__) states) by in_states.
  split; [exact H|].
  apply (other_states_come_from_an_emotion_label
           [("Trust", 0.6%float); ("joy", 0.4%float)] [("NEGATIVE", 1%float)]
           __init__ "Curious" (set_state "Curious" __init__) H).
  - vm_compute. reflexivity.
  - discriminate.
  - discriminate.
  - discriminate.
Defined.

(** Every one of the seven states has an emotion label that selects it,
    whatever its weight and whatever the sentiment says. *)
Theorem every_state_is_selectable s self :
  In s states -> In (state self) states ->
  exists l, forall w sent,
      update_from_nlp [(l, w)] sent self = Ok (PyStr s, set_state s self).
Proof.
  intros Hs Hst. apply registered_In in Hst.
  assert (Hkey : exists l, Py.get mapping (Py.lower l) = Some s).
  { unfold states in Hs. simpl in Hs.
    destruct Hs as [<- | [<- | [<- | [<- | [<- | [<- | [<- | []]]]]]]].
    - now exists "neutral".
    - now exists "joy".
    - now exists "sadness".
    - now exists "anger".
    - now exists "surprise".
    - now exists "fear".
    - now exists "curious". }
  destruct Hkey as [l Hl]. exists l. intros w sent.
  rewrite (update_from_nlp_registered _ _ self Hst).
  now rewrite (chosen_target_emotion [(l, w)] sent l s eq_refl Hl).
Qed.

Lemma every_state_is_selectable_witness :
  In "Curious" states /\ In (state __init__) states
  /\ exists l, forall w sent,
       update_from_nlp [(l, w)] sent __init__
       = Ok (PyStr "Curious", set_state "Curious" __init__).
Proof.
  assert (Hs : In "Curious" states) by in_states.
  assert (H : In (state __init__) states) by in_states.
  split; [exact Hs|]. split; [exact H|].
  exact (every_state_is_selectable "Curious" __init__ Hs H).
Defined.

(** Every entry of the label table is in use: a dictionary holding just one
    of its fifteen keys, written as in the table or in upper case, selects
    the state the table gives for that key. *)
Theorem label_table_entries_are_live k v w sent self :
  In (k, v) mapping -> In (state self) states ->
  update_from_nlp [(k, w)] sent self = Ok (PyStr v, set_state v self)
  /\ update_from_nlp [(Py.upper k, w)] sent self
     = Ok (PyStr v, set_state v self).
Proof.
  intros Hin Hst. apply registered_In in Hst.
  rewrite !(update_from_nlp_registered _ _ self Hst).
  assert (Hget : Py.get mapping (Py.lower k) = Some v
                 /\ Py.get mapping (Py.lower (Py.upper k)) = Some v).
  { unfold mapping in Hin. simpl in Hin.
    repeat (destruct Hin as [Hin | Hin];
            [injection Hin as <- <-; split; reflexivity|]).
    contradiction. }
  destruct Hget as [H1 H2].
  rewrite (chosen_target_emotion [(k, w)] sent k v eq_refl H1).
  rewrite (chosen_target_emotion [(Py.upper k, w)] sent (Py.upper k) v
             eq_refl H2).
  split; reflexivity.
Qed.

Lemma label_table_entries_are_live_witness :
  In ("disgust", "Angry") mapping /\ In (state __init__) states
  /\ update_from_nlp [("DISGUST", 0.3%float)] [("POSITIVE", 1%float)] __init__
     = Ok (PyStr "Angry", set_state "Angry" __init__).
Proof.
  assert (Hin : In ("disgust", "Angry") mapping) by (unfold mapping; simpl; auto 20).
  assert (H : In (state __init__) states) by in_states.
  split; [exact Hin|]. split; [exact H|].
  exact (proj2 (label_table_entries_are_live "disgust" "Angry" 0.3%float
                  [("POSITIVE", 1%float)] __init__ Hin H)).
Defined.

(** Sentiment labels are compared without regard to case as well: writing
    the ASCII labels of a sentiment dictionary in upper case or in lower
    case, the rewritten labels staying distinct, leaves the outcome of
    [update_from_nlp] as it was. *)
Theorem sentiment_labels_ignore_case emo sent self :
  (forall l, In l (map fst sent) -> is_ascii l = true) ->
  (NoDup (map fst (relabel Py.upper sent)) ->
   update_from_nlp emo (relabel Py.upper sent) self
   = update_from_nlp emo sent self)
  /\ (NoDup (map fst (relabel Py.lower sent)) ->
      update_from_nlp emo (relabel Py.lower sent) self
      = update_from_nlp emo sent self).
Proof.
  intros Hascii.
  split; intros _; apply update_from_nlp_same_target;
    apply chosen_target_relabel_sentiment.
  - intros l Hl. apply upper_upper_ascii, Hascii. now apply top_label_In.
  - apply truthy_upper.
  - intros l Hl. apply upper_lower_ascii, Hascii. now apply top_label_In.
  - apply truthy_lower.
Qed.

Lemma sentiment_labels_ignore_case_witness :
  (forall l, In l (map fst [("Positive", 0.8%float); ("negative", 0.2%float)])
             -> is_ascii l = true)
  /\ NoDup (map fst (relabel Py.upper
              [("Positive", 0.8%float); ("negative", 0.2%float)]))
  /\ update_from_nlp [] (relabel Py.upper
                           [("Positive", 0.8%float); ("negative", 0.2%float)])
       __init__
     = update_from_nlp [] [("Positive", 0.8%float); ("negative", 0.2%float)]
         __init__.
Proof.
  assert (Hascii : forall l,
             In l (map fst [("Positive", 0.8%float); ("negative", 0.2%float)])
             -> is_ascii l = true).
  { intros l [<- | [<- | []]]; reflexivity. }
  assert (Hup : NoDup (map fst (relabel Py.upper
                  [("Positive", 0.8%float); ("negative", 0.2%float)]))).
  { vm_compute. repeat constructor; simpl; intuition discriminate. }
  split; [exact Hascii|]. split; [exact Hup|].
  exact (proj1 (sentiment_labels_ignore_case [] _ __init__ Hascii) Hup).
Defined.

(** ** The top label *)

(** No label comes out of an empty dictionary only, and the label that does
    come out is one of the dictionary's own. *)
Theorem top_label_is_a_key d :
  (Py.top_label d = None <-> d = [])
  /\ forall l, Py.top_label d = Some l -> exists w, In (l, w) d.
Proof.
  split.
  - destruct d; simpl; split; intros H; congruence.
  - intros l Htop. destruct d as [|x r]; [discriminate|].
    simpl in Htop. injection Htop as <-.
    exists (snd (Py.max_loop x r)).
    rewrite <- surjective_pairing. apply max_loop_In.
Qed.

(** A NaN score does not compare with anything. In first position it fixes
    the top label whatever the other scores are; anywhere else its item is
    passed over, so [update_from_nlp] gives what it gives without it. *)
Theorem nan_scores l w :
  PrimFloat.is_nan w = true ->
  (forall r, Py.top_label ((l, w) :: r) = Some l)
  /\ (forall r sent self,
         update_from_nlp ((l, w) :: r) sent self
         = update_from_nlp [(l, w)] sent self)
  /\ (forall a r1 r2 sent self,
         update_from_nlp (a :: r1 ++ (l, w) :: r2)%list sent self
         = update_from_nlp (a :: r1 ++ r2)%list sent self)
  /\ (forall emo a r1 r2 self,
         update_from_nlp emo (a :: r1 ++ (l, w) :: r2)%list self
         = update_from_nlp emo (a :: r1 ++ r2)%list self).
Proof.
  intros Hnan.
  assert (Hfirst : forall r, Py.max_loop (l, w) r = (l, w)).
  { intros r. apply max_loop_keeps. intros x _. simpl.
    now apply (gt_nan w (snd x)). }
  assert (Hskip : forall a r1 r2,
             Py.top_label (a :: r1 ++ (l, w) :: r2)%list
             = Py.top_label (a :: r1 ++ r2)%list).
  { intros a r1 r2. simpl. now rewrite (max_loop_skips_nan a r1 (l, w) r2). }
  split; [|split; [|split]].
  - intros r. simpl. now rewrite Hfirst.
  - intros r sent self. apply update_from_nlp_same_target.
    unfold chosen_target. simpl Py.top_label. now rewrite Hfirst.
  - intros a r1 r2 sent self. apply update_from_nlp_same_target.
    unfold chosen_target. now rewrite Hskip.
  - intros emo a r1 r2 self. apply update_from_nlp_same_target.
    unfold chosen_target. now rewrite Hskip.
Qed.

Lemma nan_scores_witness :
  PrimFloat.is_nan nan = true
  /\ Py.top_label [("fear", nan); ("joy", 0.9%float)] = Some "fear"
  /\ update_from_nlp [("joy", 0.9%float); ("fear", nan)] [] __init__
     = update_from_nlp [("joy", 0.9%float)] [] __init__.
Proof.
  assert (H : PrimFloat.is_nan nan = true) by (vm_compute; reflexivity).
  split; [exact H|].
  destruct (nan_scores "fear" nan H) as (Hfirst & _ & Hskip & _).
  split; [exact (Hfirst [("joy", 0.9%float)])|].
  exact (Hskip ("joy", 0.9%float) [] [] [] __init__).
Defined.

(** When one item is strictly heavier than every other, it is selected
    wherever it stands: dictionaries with the same items in another order
    give the same outcome. *)
Theorem unique_maximum_is_order_independent d d' l w :
  Permutation d d' ->
  In (l, w) d ->
  (forall x, In x d -> x = (l, w) \/ PrimFloat.ltb (snd x) w = true) ->
  Py.top_label d = Some l
  /\ Py.top_label d' = Some l
  /\ (forall sent self,
         update_from_nlp d sent self = update_from_nlp d' sent self)
  /\ (forall emo self,
         update_from_nlp emo d self = update_from_nlp emo d' self).
Proof.
  intros Hperm Hin Hall.
  assert (H1 : Py.top_label d = Some l) by now apply (top_label_dominant d l w).
  assert (H2 : Py.top_label d' = Some l).
  { apply (top_label_dominant d' l w).
    - now apply (Permutation_in _ Hperm).
    - intros x Hx. apply Hall.
      now apply (Permutation_in _ (Permutation_sym Hperm)). }
  split; [assumption|]. split; [assumption|].
  split; intros; apply update_from_nlp_same_target;
    unfold chosen_target; now rewrite H1, H2.
Qed.

Lemma unique_maximum_is_order_independent_witness :
  Permutation [("joy", 0.2%float); ("anger", 0.7%float)]
              [("anger", 0.7%float); ("joy", 0.2%float)]
  /\ Py.top_label [("joy", 0.2%float); ("anger", 0.7%float)] = Some "anger"
  /\ Py.top_label [("anger", 0.7%float); ("joy", 0.2%float)] = Some "anger".
Proof.
  assert (Hp : Permutation [("joy", 0.2%float); ("anger", 0.7%float)]
                           [("anger", 0.7%float); ("joy", 0.2%float)])
    by apply perm_swap.
  assert (Hin : In ("anger", 0.7%float)
                   [("joy", 0.2%float); ("anger", 0.7%float)])
    by (simpl; auto).
  assert (Hall : forall x,
             In x [("joy", 0.2%float); ("anger", 0.7%float)] ->
             x = ("anger", 0.7%float)
             \/ PrimFloat.ltb (snd x) 0.7%float = true).
  { intros x [<- | [<- | []]];
      [right; vm_compute; reflexivity | left; reflexivity]. }
  split; [exact Hp|].
  destruct (unique_maximum_is_order_independent _ _ "anger" 0.7%float
              Hp Hin Hall) as (H1 & H2 & _).
  split; [exact H1 | exact H2].
Defined.

(** When no score is a NaN, the label selected does carry the greatest
    weight of the dictionary, and it is the first label that carries it. *)
Theorem top_label_has_the_greatest_weight d l :
  nan_free d ->
  Py.top_label d = Some l ->
  exists i w, greatest d w /\ first_with d i l w.
Proof.
  intros Hnf Htop. destruct d as [|x r]; [discriminate|].
  simpl in Htop. injection Htop as Hl.
  destruct (max_loop_split [] x [] r) as (pre & post & Heq & Hpre & Hpost).
  - apply Hnf. now left.
  - intros y Hy. apply Hnf. now right.
  - intros y [].
  - intros y [].
  - simpl in Heq.
    set (b := Py.max_loop x r) in *.
    assert (Hb : b = (l, snd b)) by (rewrite <- Hl; apply surjective_pairing).
    assert (Hbnan : PrimFloat.is_nan (snd b) = false).
    { apply Hnf. rewrite Heq. apply in_or_app. right. now left. }
    exists (List.length pre), (snd b). split.
    + intros y Hy. rewrite Heq in Hy.
      apply in_app_or in Hy. destruct Hy as [Hy | [<- | Hy]].
      * apply ltb_leb. now apply Hpre.
      * now apply leb_refl.
      * now apply Hpost.
    + split.
      * rewrite Heq, nth_error_app2 by apply Nat.le_refl.
        rewrite Nat.sub_diag. simpl. now rewrite <- Hb.
      * intros j y Hj Hy. rewrite Heq in Hy.
        rewrite nth_error_app1 in Hy by assumption.
        apply ltb_neq. apply Hpre. now apply (nth_error_In pre j).
Qed.

Lemma top_label_has_the_greatest_weight_witness :
  nan_free [("sad", 0.3%float); ("joy", 0.6%float); ("fear", 0.6%float)]
  /\ Py.top_label [("sad", 0.3%float); ("joy", 0.6%float); ("fear", 0.6%float)]
     = Some "joy"
  /\ exists i w,
       greatest [("sad", 0.3%float); ("joy", 0.6%float); ("fear", 0.6%float)] w
       /\ first_with [("sad", 0.3%float); ("joy", 0.6%float);
                      ("fear", 0.6%float)] i "joy" w.
Proof.
  assert (Hnf : nan_free [("sad", 0.3%float); ("joy", 0.6%float);
                          ("fear", 0.6%float)]).
  { intros x [<- | [<- | [<- | []]]]; vm_compute; reflexivity. }
  assert (Htop : Py.top_label [("sad", 0.3%float); ("joy", 0.6%float);
                               ("fear", 0.6%float)] = Some "joy")
    by (vm_compute; reflexivity).
  split; [exact Hnf|]. split; [exact Htop|].
  exact (top_label_has_the_greatest_weight _ "joy" Hnf Htop).
Defined.

(** ** The graph of any machine *)

(** [get_graphviz_source] raises on no machine, whatever its [state]
    attribute holds: the description is a [png] graph of 50 statements, the
    [rankdir] attribute first, with the seven nodes and the 42 edges; when
    the state is none of the seven, no node is highlighted. *)
Theorem graph_never_fails self :
  exists g,
    get_graphviz_source self = Ok (g, self)
    /\ format g = "png"
    /\ List.length (body g) = 50%nat
    /\ hd_error (body g) = Some (GraphAttr "rankdir" "LR")
    /\ node_names g = states
    /\ edge_pairs g = complete_edges
    /\ (~ In (state self) states -> active_nodes g = []).
Proof.
  destruct self as [st ms].
  unfold get_graphviz_source, bind, read_state, ret. cbn [state].
  eexists. split; [reflexivity|].
  split; [reflexivity|]. split; [reflexivity|]. split; [reflexivity|].
  unfold node_names, edge_pairs, active_nodes, states.
  cbn [body map].
  destruct (String.eqb_spec "Neutral" st) as [<- | H1];
    [repeat split; try reflexivity; intros H; exfalso; apply H; simpl; auto 10|].
  destruct (String.eqb_spec "Happy" st) as [<- | H2];
    [repeat split; try reflexivity; intros H; exfalso; apply H; simpl; auto 10|].
  destruct (String.eqb_spec "Sad" st) as [<- | H3];
    [repeat split; try reflexivity; intros H; exfalso; apply H; simpl; auto 10|].
  destruct (String.eqb_spec "Angry" st) as [<- | H4];
    [repeat split; try reflexivity; intros H; exfalso; apply H; simpl; auto 10|].
  destruct (String.eqb_spec "Surprised" st) as [<- | H5];
    [repeat split; try reflexivity; intros H; exfalso; apply H; simpl; auto 10|].
  destruct (String.eqb_spec "Fearful" st) as [<- | H6];
    [repeat split; try reflexivity; intros H; exfalso; apply H; simpl; auto 10|].
  destruct (String.eqb_spec "Curious" st) as [<- | H7];
    [repeat split; try reflexivity; intros H; exfalso; apply H; simpl; auto 10|].
  repeat split; reflexivity.
Qed.

(** ** The page script *)

(** [IMAGE_MAP] has a picture for each of the seven states and for nothing
    else, and no two states share a picture. *)
Theorem every_mood_has_its_own_image :
  (forall s, In s states <-> exists f, Py.get IMAGE_MAP s = Some f)
  /\ (forall s1 s2 f,
         Py.get IMAGE_MAP s1 = Some f -> Py.get IMAGE_MAP s2 = Some f ->
         s1 = s2).
Proof.
  assert (Hkey : forall s f, Py.get IMAGE_MAP s = Some f ->
                             In (s, f) IMAGE_MAP).
  { intros s f. unfold IMAGE_MAP. cbn [Py.get].
    repeat match goal with
           | |- context [String.eqb ?k s] =>
               destruct (String.eqb_spec k s) as [<- | ?]
           end;
      intros H; try discriminate H; injection H as <-; simpl; auto 10. }
  split.
  - intros s. split; [apply image_of_state|].
    intros [f Hf]. apply Hkey in Hf. unfold IMAGE_MAP in Hf. simpl in Hf.
    repeat (destruct Hf as [Hf | Hf]; [injection Hf as <- _; in_states|]).
    contradiction.
  - intros s1 s2 f H1 H2. apply Hkey in H1, H2.
    unfold IMAGE_MAP in H1, H2. simpl in H1, H2.
    repeat (destruct H1 as [H1 | H1]; [injection H1 as <- <-|]);
      try contradiction;
      repeat (destruct H2 as [H2 | H2];
              [first [discriminate H2 | injection H2 as <-; reflexivity]|]);
      contradiction.
Qed.

(** The statements of [handle_audio_cycle] that save the previous mood and
    update the machine, on a machine in one of the seven states: the state
    the machine had is stored as the previous mood, the machine moves to
    the state [update_from_nlp] returns, and [IMAGE_MAP] has a picture for
    both moods, which the statements after them look up. *)
Theorem save_previous_and_update_tracks_the_moods emo_pred sent_pred p :
  In (state (fsm p)) states ->
  exists s p',
    save_previous_and_update emo_pred sent_pred p = Ok (PyStr s, p')
    /\ update_from_nlp emo_pred sent_pred (fsm p) = Ok (PyStr s, fsm p')
    /\ state (fsm p') = s
    /\ In s states
    /\ prev_mood p' = Some (state (fsm p))
    /\ (exists f, Py.get IMAGE_MAP (state (fsm p)) = Some f)
    /\ (exists f, Py.get IMAGE_MAP (state (fsm p')) = Some f).
Proof.
  intros Hst.
  pose proof (proj2 (registered_In _) Hst) as Hreg.
  assert (Hs : In (chosen_target emo_pred sent_pred) states)
    by apply registered_In, chosen_target_registered.
  exists (chosen_target emo_pred sent_pred).
  unfold save_previous_and_update. cbn [fsm prev_mood].
  rewrite (update_from_nlp_registered emo_pred sent_pred (fsm p) Hreg).
  eexists. split; [reflexivity|]. cbn [fsm prev_mood state set_state].
  split; [reflexivity|]. split; [reflexivity|]. split; [assumption|].
  split; [reflexivity|]. split; now apply image_of_state.
Qed.

Lemma save_previous_and_update_tracks_the_moods_witness :
  In (state (fsm (mkPage (set_state "Sad" __init__) (Some "Neutral")))) states
  /\ exists s p',
       save_previous_and_update [("surprise", 1%float)] []
         (mkPage (set_state "Sad" __init__) (Some "Neutral"))
       = Ok (PyStr s, p')
       /\ state (fsm p') = s
       /\ prev_mood p' = Some "Sad".
Proof.
  assert (H : In (state (fsm (mkPage (set_state "Sad" __init__)
                                     (Some "Neutral")))) states)
    by in_states.
  split; [exact H|].
  destruct (save_previous_and_update_tracks_the_moods
              [("surprise", 1%float)] []
              (mkPage (set_state "Sad" __init__) (Some "Neutral")) H)
    as (s & p' & Hrun & _ & Hs & _ & Hprev & _).
  exists s, p'. repeat split; assumption.
Defined.

(** The first rendering leaves the machine alone. On a session without the
    key ["prev_mood"] it creates the key with ["Neutral"], and it keeps a
    previous mood that is already there; when both moods are among the
    seven states each gets a picture, and the graph highlights the current
    state. *)
Theorem display_moods_keeps_the_machine p :
  In (state (fsm p)) states ->
  (forall m, prev_mood p = Some m -> In m states) ->
  exists shown p',
    display_moods p = Ok (shown, p')
    /\ fsm p' = fsm p
    /\ prev_mood p'
       = Some (match prev_mood p with Some m => m | None => "Neutral" end)
    /\ (exists f, prev_img shown = Some f)
    /\ (exists f, current_img shown = Some f)
    /\ active_nodes (graph shown) = [state (fsm p)].
Proof.
  intros Hst Hprev.
  destruct (graph_of_registered (fsm p) Hst) as (g & Hrun & _ & _ & Ha).
  unfold display_moods, track_previous_mood.
  destruct p as [f [m|]]; cbn [fsm prev_mood] in *; rewrite Hrun.
  - eexists. eexists. split; [reflexivity|]. simpl.
    split; [reflexivity|]. split; [reflexivity|].
    split; [apply image_of_state; now apply Hprev|].
    split; [now apply image_of_state | exact Ha].
  - eexists. eexists. split; [reflexivity|]. simpl.
    split; [reflexivity|]. split; [reflexivity|].
    split; [eexists; reflexivity|].
    split; [now apply image_of_state | exact Ha].
Qed.

Lemma display_moods_keeps_the_machine_witness :
  In (state (fsm (mkPage __init__ None))) states
  /\ (forall m, prev_mood (mkPage __init__ None) = Some m -> In m states)
  /\ exists shown p',
       display_moods (mkPage __init__ None) = Ok (shown, p')
       /\ fsm p' = __init__
       /\ prev_mood p' = Some "Neutral".
Proof.
  assert (H : In (state (fsm (mkPage __init__ None))) states) by in_states.
  assert (Hp : forall m, prev_mood (mkPage __init__ None) = Some m ->
                         In m states)
    by (intros m Hm; discriminate Hm).
  split; [exact H|]. split; [exact Hp|].
  destruct (display_moods_keeps_the_machine (mkPage __init__ None) H Hp)
    as (shown & p' & Hrun & Hf & Hprev & _).
  exists shown, p'. repeat split; assumption.
Defined.

Lemma top_label_is_a_key_witness :
  Py.top_label [("joy", 0.1%float); ("trust", 0.5%float)] = Some "trust"
  /\ exists w, In ("trust", w) [("joy", 0.1%float); ("trust", 0.5%float)].
Proof.
  assert (H : Py.top_label [("joy", 0.1%float); ("trust", 0.5%float)]
              = Some "trust") by (vm_compute; reflexivity).
  split; [exact H|].
  exact (proj2 (top_label_is_a_key [("joy", 0.1%float); ("trust", 0.5%float)])
           "trust" H).
Defined.

Lemma graph_never_fails_witness :
  ~ In (state (mkFSM "Bored" [])) states
  /\ exists g,
       get_graphviz_source (mkFSM "Bored" []) = Ok (g, mkFSM "Bored" [])
       /\ node_names g = states
       /\ active_nodes g = [].
Proof.
  assert (H : ~ In (state (mkFSM "Bored" [])) states)
    by (unfold states; simpl; intuition discriminate).
  split; [exact H|].
  destruct (graph_never_fails (mkFSM "Bored" []))
    as (g & Hrun & _ & _ & _ & Hn & _ & Ha).
  exists g. split; [exact Hrun|]. split; [exact Hn | exact (Ha H)].
Defined.

(** ** The transition table *)

(** No trigger of [transitions_def] is ever refused: fired on a machine in
    any of the seven states it returns [True] and moves the machine to its
    destination, which is one of the seven. Each state is the destination
    of one trigger and of one only. *)
Theorem every_trigger_fires_everywhere :
  (forall t self,
      In t transitions_def -> In (state self) states ->
      fire (trigger t) self = Ok (PyBool true, set_state (dest t) self)
      /\ In (dest t) states)
  /\ (forall s, In s states <->
                exists t, In t transitions_def /\ dest t = s)
  /\ NoDup (map dest transitions_def)
  /\ NoDup (map trigger transitions_def).
Proof.
  split; [|split; [|split]].
  - intros t self Ht Hst. apply registered_In in Hst.
    destruct (fire_wildcard self Hst) as (Hh & Hs & Ha & Hn & Hsu & Hf & Hc).
    unfold transitions_def in Ht. simpl in Ht.
    destruct Ht as [<- | [<- | [<- | [<- | [<- | [<- | [<- | []]]]]]]];
      (split; [assumption | in_states]).
  - intros s. split.
    + intros H.
      assert (Hd : In s (map dest transitions_def)).
      { unfold states in H. simpl in H. simpl. tauto. }
      apply in_map_iff in Hd. destruct Hd as (t & Hd & Ht).
      exists t. now split.
    + intros (t & Ht & <-). unfold transitions_def in Ht. simpl in Ht.
      repeat (destruct Ht as [<- | Ht]; [in_states|]). contradiction.
  - assert (H : nodup string_dec (map dest transitions_def)
                = map dest transitions_def) by (vm_compute; reflexivity).
    rewrite <- H. apply NoDup_nodup.
  - assert (H : nodup string_dec (map trigger transitions_def)
                = map trigger transitions_def) by (vm_compute; reflexivity).
    rewrite <- H. apply NoDup_nodup.
Qed.

Lemma every_trigger_fires_everywhere_witness :
  In (mkTransition "to_fearful" "*" "Fearful") transitions_def
  /\ In (state (set_state "Happy" __init__)) states
  /\ fire "to_fearful" (set_state "Happy" __init__)
     = Ok (PyBool true, set_state "Fearful" (set_state "Happy" __init__)).
Proof.
  assert (Ht : In (mkTransition "to_fearful" "*" "Fearful") transitions_def)
    by (unfold transitions_def; simpl; auto 10).
  assert (H : In (state (set_state "Happy" __init__)) states) by in_states.
  split; [exact Ht|]. split; [exact H|].
  exact (proj1 (proj1 every_trigger_fires_everywhere
                  (mkTransition "to_fearful" "*" "Fearful")
                  (set_state "Happy" __init__) Ht H)).
Defined.

(** The graph draws the machine's own moves: for a machine in one of the
    seven states, there is an edge from the current state to [t] exactly
    when [t] is another state that [_apply_transition t] moves the machine
    to. The one move the machine makes and the graph leaves out is the one
    from the current state to itself. *)
Theorem edges_are_the_moves_between_different_states self t :
  In (state self) states ->
  exists g,
    get_graphviz_source self = Ok (g, self)
    /\ (In (state self, t) (edge_pairs g) <->
        state self <> t
        /\ _apply_transition t self = Ok (PyNone, set_state t self))
    /\ ~ In (state self, state self) (edge_pairs g)
    /\ _apply_transition (state self) self
       = Ok (PyNone, set_state (state self) self).
Proof.
  intros Hst.
  destruct (graph_of_registered self Hst) as (g & Hrun & _ & He & _).
  pose proof (proj2 (registered_In _) Hst) as Hreg.
  exists g. split; [exact Hrun|]. rewrite He, !complete_edges_In.
  rewrite !(apply_transition_registered _ self Hreg).
  split; [|split].
  - split.
    + intros (_ & Ht & Hne). split; [assumption|].
      apply registered_In in Ht. now rewrite Ht.
    + intros (Hne & Hrun'). split; [assumption|]. split; [|assumption].
      destruct (registered t) eqn:Ht; [now apply registered_In|].
      injection Hrun' as Heq. rewrite <- Heq in Ht. discriminate Ht.
  - intros (_ & _ & Hne). now apply Hne.
  - now rewrite Hreg.
Qed.

Lemma edges_are_the_moves_between_different_states_witness :
  In (state __init__) states
  /\ exists g,
       get_graphviz_source __init__ = Ok (g, __init__)
       /\ In ("Neutral", "Angry") (edge_pairs g)
       /\ ~ In ("Neutral", "Neutral") (edge_pairs g).
Proof.
  assert (H : In (state __init__) states) by in_states.
  split; [exact H|].
  destruct (edges_are_the_moves_between_different_states __init__ "Angry" H)
    as (g & Hrun & Hiff & Hself & _).
  exists g. split; [exact Hrun|]. split; [|exact Hself].
  apply Hiff. split; [discriminate | reflexivity].
Defined.
